(** * start.py: the launcher's port scan, health probe and process supervision

    A shallow embedding of [src/start.py]: [write_status], [test_command],
    [test_port], [find_free_port], [run_command], [check_url],
    [start_backend], [start_frontend], and [start_all] with its nested
    [cleanup].

    The script talks to the operating system all the time (sockets, child
    processes, files, HTTP).  Everything outside the script is a [world]: a
    record of answer functions, each indexed by the number of answers the
    script has received so far (its [tick]), so that the same question can
    get different answers at different times.  The script itself is written
    in a monad with state (the variables [cleanup] shares with [start_all],
    and the tick), Python exceptions, and a log of the operations performed,
    in the order they were performed.

    Conventions.  A [try]/[except] clause is [try_except] with the test the
    clause makes on the exception; [sys.exit] raises [SystemExit].  A [for]
    loop that is left early is [for_each], one that is not is [for_in].
    Paths are joined as on POSIX.  A signal is delivered only while
    [start_all] idles in its last loop, where its handler [cleanup] runs;
    [signal_after] says after how many seconds. *)

From Stdlib Require Import ZArith List String Ascii Bool Lia.
From stdpp Require Import base option list gmap strings pretty.

Local Open Scope string_scope.
Local Open Scope Z_scope.

(** ** Python exceptions *)

(** [SystemExit] and [KeyboardInterrupt] derive from [BaseException] only;
    every other class the script can meet derives from [Exception].
    [subprocess.TimeoutExpired] is kept apart because [cleanup] names it. *)
Inductive exn :=
  | SystemExit (code : Z)
  | KeyboardInterrupt
  | TimeoutExpired (msg : string)
  | PyError (cls msg : string).

(** [isinstance(e, Exception)] *)
Definition is_Exception (e : exn) : bool :=
  match e with
  | SystemExit _ | KeyboardInterrupt => false
  | TimeoutExpired _ | PyError _ _ => true
  end.

(** [isinstance(e, subprocess.TimeoutExpired)] *)
Definition is_TimeoutExpired (e : exn) : bool :=
  match e with TimeoutExpired _ => true | _ => false end.

(** [str(e)] *)
Definition str_exn (e : exn) : string :=
  match e with
  | SystemExit c => pretty c
  | KeyboardInterrupt => ""
  | TimeoutExpired m => m
  | PyError _ m => m
  end.

Inductive result (A : Type) :=
  | Return (a : A)
  | Raise (e : exn).
Arguments Return {A} a.
Arguments Raise {A} e.

(** ** Handles and values handed out by the operating system *)

Definition file := Z.
Definition proc := Z.
Abbreviation environment := (gmap string string).

(** [subprocess.CompletedProcess] *)
Record completed := Completed { returncode : Z; stdout : string; stderr : string }.

(** The response object of [urllib.request.urlopen]; [on_close] is what
    leaving the [with] block (closing the response) does. *)
Record response := Response { status : Z; on_close : result unit }.

(** A command is a string, or the list [str.split] makes of it. *)
Inductive command :=
  | CmdStr (s : string)
  | CmdList (l : list string).

(** ** The world *)

Record world := World {
  now_hms : nat → string;
  which : nat → string → bool;
  connect_ex : nat → Z → Z;
  path_exists : nat → string → bool;
  abspath : nat → string → string;
  subprocess_run : nat → command → option string → bool → bool → result completed;
  input_line : nat → string → result string;
  open_file : nat → string → string → result file;
  file_read : nat → file → result string;
  file_close : nat → file → result unit;
  popen : nat → string → string → environment → file → result proc;
  proc_terminate : nat → proc → result unit;
  proc_wait : nat → proc → Z → result Z;
  proc_kill : nat → proc → result unit;
  urlopen : nat → string → Z → result response;
  environ : environment;
  splitlines : string → list string;
  signal_after : nat
}.

(** ** Operations the script performs on the world *)

Inductive event :=
  | Stdout (text : string)
  | Sleep (secs : Z)
  | Connect (port : Z)
  | Run (cmd : command) (cwd : option string) (shell capture : bool)
  | Input (prompt : string)
  | SignalHandler (signum : Z)
  | Open (path mode : string)
  | Read (f : file)
  | Close (f : file)
  | Spawn (cmd cwd : string) (env : environment) (log : file)
  | Terminate (p : proc)
  | Wait (p : proc) (timeout : Z)
  | Kill (p : proc)
  | HttpGet (url : string) (timeout : Z).

(** ** State: the variables of [start_all] that [cleanup] closes over *)

Record state := State {
  backend_process : option proc;
  frontend_process : option proc;
  backend_log : option file;
  frontend_log : option file;
  tick : nat
}.

Definition set_backend_process (v : option proc) (s : state) : state :=
  State v (frontend_process s) (backend_log s) (frontend_log s) (tick s).
Definition set_frontend_process (v : option proc) (s : state) : state :=
  State (backend_process s) v (backend_log s) (frontend_log s) (tick s).
Definition set_backend_log (v : option file) (s : state) : state :=
  State (backend_process s) (frontend_process s) v (frontend_log s) (tick s).
Definition set_frontend_log (v : option file) (s : state) : state :=
  State (backend_process s) (frontend_process s) (backend_log s) v (tick s).
Definition next_tick (s : state) : state :=
  State (backend_process s) (frontend_process s) (backend_log s) (frontend_log s)
        (S (tick s)).

(** ** The monad *)

Record run (A : Type) := Ran { res : result A; final : state; events : list event }.
Arguments Ran {A} res final events.
Arguments res {A} r.
Arguments final {A} r.
Arguments events {A} r.

Definition M (A : Type) : Type := state → run A.

Definition ret {A} (a : A) : M A := λ s, Ran (Return a) s [].

Definition bind {A B} (m : M A) (k : A → M B) : M B := λ s,
  match m s with
  | Ran (Return a) s1 e1 =>
      match k a s1 with Ran r s2 e2 => Ran r s2 (e1 ++ e2) end
  | Ran (Raise x) s1 e1 => Ran (Raise x) s1 e1
  end.

Notation "'let*' x ':=' m 'in' k" := (bind m (λ x, k))
  (at level 10, x name, m at level 100, k at level 200,
   format "'[' 'let*'  x  ':='  m  'in' ']' '/' k").
Notation "m '>>' k" := (bind m (λ _, k))
  (at level 100, k at level 200, right associativity,
   format "'[' m  '>>' ']' '/' k").

(** [raise e] *)
Definition raise {A} (e : exn) : M A := λ s, Ran (Raise e) s [].

(** An outcome that is already known. *)
Definition answer {A} (r : result A) : M A := λ s, Ran r s [].

(** [sys.exit(code)] *)
Definition sys_exit {A} (code : Z) : M A := raise (SystemExit code).

(** [try: body / except <classes matching catches> as e: handler e].
    An exception the clause does not name propagates. *)
Definition try_except {A} (body : M A) (catches : exn → bool) (handler : exn → M A)
  : M A := λ s,
  match body s with
  | Ran (Return a) s1 e1 => Ran (Return a) s1 e1
  | Ran (Raise x) s1 e1 =>
      if catches x
      then match handler x s1 with Ran r s2 e2 => Ran r s2 (e1 ++ e2) end
      else Ran (Raise x) s1 e1
  end.

(** A bare [except:] catches every [BaseException]. *)
Definition anything (e : exn) : bool := true.

(** [with acquire as r: body r]: the resource is released on the way out,
    also when the body raises; an exception of the release wins. *)
Definition with_as {R A} (acquire : M R) (release : R → M unit) (body : R → M A)
  : M A :=
  let* r := acquire in
  λ s,
  match body r s with
  | Ran out s1 e1 =>
      match release r s1 with
      | Ran (Return _) s2 e2 => Ran out s2 (e1 ++ e2)
      | Ran (Raise x) s2 e2 => Ran (Raise x) s2 (e1 ++ e2)
      end
  end.

(** Record an operation that gets no answer. *)
Definition emit (e : event) : M unit := λ s, Ran (Return tt) s [e].

(** Perform an operation and take the world's answer for the current tick. *)
Definition ask {A} (e : list event) (answer : nat → result A) : M A := λ s,
  Ran (answer (tick s)) (next_tick s) e.

(** An answer that cannot be an exception. *)
Definition query {A} (answer : nat → A) : M A := ask [] (λ t, Return (answer t)).

Definition get {A} (field : state → A) : M A := λ s, Ran (Return (field s)) s [].
Definition assign (update : state → state) : M unit := λ s, Ran (Return tt) (update s) [].

(** [for x in xs: body x], where the body leaves the loop ([break] or
    [return v]) by answering [Some v]. *)
Fixpoint for_each {A B} (xs : list A) (body : A → M (option B)) : M (option B) :=
  match xs with
  | [] => ret None
  | x :: rest =>
      let* out := body x in
      match out with
      | Some v => ret (Some v)
      | None => for_each rest body
      end
  end.

(** [range(a, b)] *)
Definition py_range (a b : Z) : list Z :=
  map (λ i, a + Z.of_nat i) (seq 0 (Z.to_nat (b - a))).

(** The line feed. *)
Definition nl : string := String "010"%char "".

(** [print(text)] and [print(text, end=...)] with an empty [end] *)
Definition print (text : string) : M unit := emit (Stdout (text +:+ nl)).
Definition print_no_newline (text : string) : M unit := emit (Stdout text).

(** [time.sleep(secs)].  The sleeps of the health checks are taken to
    pass undisturbed: signals are delivered in the idle loop, see [idle].
    A signal that arrives during a health check would run [cleanup] inside
    the sleep and leave the loop by its [SystemExit]. *)
Definition sleep (secs : Z) : M unit := emit (Sleep secs).

(** Total time spent in [time.sleep] by a sequence of operations. *)
Fixpoint slept (evs : list event) : Z :=
  match evs with
  | [] => 0
  | Sleep n :: rest => n + slept rest
  | _ :: rest => slept rest
  end.

(** [for x in xs: body x] without [break]. *)
Fixpoint for_in {A} (xs : list A) (body : A → M unit) : M unit :=
  match xs with
  | [] => ret tt
  | x :: rest => body x >> for_in rest body
  end.

(** ** Strings *)

Definition esc : string := String "027"%char "".

(** [class Colors] (lines 22-30) *)
Module Colors.
Definition CYAN := esc +:+ "[96m".
Definition GREEN := esc +:+ "[92m".
Definition YELLOW := esc +:+ "[93m".
Definition RED := esc +:+ "[91m".
Definition WHITE := esc +:+ "[97m".
Definition BLUE := esc +:+ "[94m".
Definition ENDC := esc +:+ "[0m".
Definition BOLD := esc +:+ "[1m".
End Colors.

(** [s * n] *)
Fixpoint str_repeat (s : string) (n : nat) : string :=
  match n with
  | O => ""
  | S k => s +:+ str_repeat s k
  end.

(** The white space [str.split()] cuts at.  A character stands for the
    code point of its number, so a [string] is a Python string of code
    points below 256; of these, white space is 9-13, 28-32, U+0085 and
    U+00A0. *)
Definition is_space (c : ascii) : bool :=
  let n := nat_of_ascii c in
  ((9 <=? n)%nat && (n <=? 13)%nat) || ((28 <=? n)%nat && (n <=? 32)%nat)
  || (n =? 133)%nat || (n =? 160)%nat.

(** [s.split()]: the maximal runs of characters that are not white space. *)
Fixpoint split_from (word : option string) (s : string) : list string :=
  match s with
  | EmptyString => match word with Some wd => [wd] | None => [] end
  | String c rest =>
      if is_space c
      then match word with
           | Some wd => wd :: split_from None rest
           | None => split_from None rest
           end
      else split_from (Some (default "" word +:+ String c "")) rest
  end.
Definition py_split (s : string) : list string := split_from None s.

(** Line 109-110: [if isinstance(cmd, str) and not shell: cmd = cmd.split()] *)
Definition argv (cmd : command) (shell : bool) : command :=
  match cmd with
  | CmdStr text => if negb shell then CmdList (py_split text) else cmd
  | CmdList _ => cmd
  end.

(** [os.path.join(a, b)] for relative [b], on POSIX. *)
Definition path_join (a b : string) : string := a +:+ "/" +:+ b.

(** [xs[-n:]] for [n > 0] *)
Definition last_n {A} (n : nat) (xs : list A) : list A :=
  drop (length xs - n) xs.

(** A port variable holds an [int] or [None]. *)
Definition falsy (v : option Z) : bool :=
  match v with
  | None => true
  | Some n => n =? 0
  end.

(** [f"{v}"] for such a variable. *)
Definition str_port (v : option Z) : string :=
  match v with
  | Some n => pretty n
  | None => "None"
  end.

(** The status the interpreter exits with when [r] is how the script ended:
    [sys.exit(c)] gives [c], an exception nobody caught gives a traceback
    and a non-zero status. *)
Definition exit_status {A} (r : result A) : Z :=
  match r with
  | Return _ => 0
  | Raise (SystemExit c) => c
  | Raise KeyboardInterrupt => 130
  | Raise _ => 1
  end.

(** The line [write_status] prints: [colors.get(msg_type, Colors.WHITE)]
    and the f-string of line 42. *)
Definition status_text (timestamp message msg_type : string) : string :=
  let color :=
    if String.eqb msg_type "SUCCESS" then Colors.GREEN
    else if String.eqb msg_type "WARNING" then Colors.YELLOW
    else if String.eqb msg_type "ERROR" then Colors.RED
    else if String.eqb msg_type "INFO" then Colors.CYAN
    else Colors.WHITE in
  color +:+ "[" +:+ timestamp +:+ "] " +:+ msg_type +:+ ": " +:+ message
  +:+ Colors.ENDC.

Definition is_KeyboardInterrupt (e : exn) : bool :=
  match e with KeyboardInterrupt => true | _ => false end.

(** The URLs of lines 589 and 661. *)
Definition backend_url (backend_port : option Z) : string :=
  "http://localhost:" +:+ str_port backend_port +:+ "/api/posts".
Definition frontend_url (frontend_port : option Z) : string :=
  "http://localhost:" +:+ str_port frontend_port.

(** The port numbers of TCP. *)
Definition valid_port (port : Z) : bool := (0 <=? port) && (port <=? 65535).

Section Script.

Variable w : world.

(** ** [write_status] and [test_command] (lines 32-46) *)

Definition write_status (message msg_type : string) : M unit :=
  let* timestamp := query (now_hms w) in
  print (status_text timestamp message msg_type).

Definition test_command (command : string) : M bool :=
  query (λ t, which w t command).

(** ** [test_port] and [find_free_port] (lines 48-61) *)

(** [sock.connect_ex(('localhost', port))] raises [OverflowError] for a
    [port] that is not a port number, before it connects to anything;
    [Connect port] records the call either way. *)
Definition test_port (port : Z) : M bool :=
  let* result := ask [Connect port]
                     (λ t, if valid_port port then Return (connect_ex w t port)
                           else Raise (PyError "OverflowError"
                                               "connect_ex(): port must be 0-65535.")) in
  ret (result =? 0).

Definition find_free_port (start_port : Z) (max_attempts : Z) : M (option Z) :=
  for_each (py_range start_port (start_port + max_attempts)) (λ port,
    let* used := test_port port in
    if negb used then ret (Some port) else ret None).

(** ** [run_command] (lines 106-132) *)

Definition run_command (cmd : command) (cwd : option string) (shell show_output : bool)
  : M (bool * string * string) :=
  try_except
    (let cmd := argv cmd shell in
     if show_output then
       let* result := ask [Run cmd cwd shell false]
                          (λ t, subprocess_run w t cmd cwd shell false) in
       ret (returncode result =? 0, "", "")
     else
       let* result := ask [Run cmd cwd shell true]
                          (λ t, subprocess_run w t cmd cwd shell true) in
       ret (returncode result =? 0, stdout result, stderr result))
    is_Exception
    (λ e, ret (false, "", str_exn e)).

(** ** [check_url] (lines 460-467) *)

Definition check_url (url : string) (timeout : Z) : M bool :=
  try_except
    (with_as (ask [HttpGet url timeout] (λ t, urlopen w t url timeout))
             (λ response, answer (on_close response))
             (λ response, ret (status response =? 200)))
    anything
    (λ _, ret false).

(** ** Files and child processes *)

(** [log.close()] on a variable that holds a file or [None]. *)
Definition close_log (log : option file) : M unit :=
  match log with
  | Some f => ask [Close f] (λ t, file_close w t f)
  | None => raise (PyError "AttributeError"
                           "'NoneType' object has no attribute 'close'")
  end.

Definition terminate (p : proc) : M unit :=
  ask [Terminate p] (λ t, proc_terminate w t p).
Definition wait (p : proc) (timeout : Z) : M Z :=
  ask [Wait p timeout] (λ t, proc_wait w t p timeout).
Definition kill (p : proc) : M unit :=
  ask [Kill p] (λ t, proc_kill w t p).

(** ** [cleanup], nested in [start_all] (lines 506-536) *)

(** Lines 511-521 and 523-533 are one block, written once for each
    service: [if process: ...], with [halt] what the [if] guards. *)
Definition halt (name : string) (p : proc) (log : state → option file) : M unit :=
  write_status ("Stopping " +:+ name +:+ "...") "INFO" >>
  try_except (let* handle := get log in close_log handle)
             anything (λ _, ret tt) >>
  terminate p >>
  try_except (wait p 5 >> ret tt) is_TimeoutExpired (λ _, kill p).

Definition stop (name : string) (process : state → option proc)
    (log : state → option file) : M unit :=
  let* tracked := get process in
  match tracked with
  | Some p => halt name p log
  | None => ret tt
  end.

Definition cleanup : M unit :=
  print nl >>
  write_status "Stopping services..." "INFO" >>
  stop "backend" backend_process backend_log >>
  stop "frontend" frontend_process frontend_log >>
  write_status "Services stopped." "SUCCESS" >>
  sys_exit 0.

(** ** [start_all] (lines 469-713) *)

Definition backend_dir := "backend".
Definition frontend_dir := "frontend".
Definition backend_log_file := path_join backend_dir "startup.log".
Definition frontend_log_file := path_join frontend_dir "startup.log".
Definition rule := Colors.YELLOW +:+ str_repeat "=" 60 +:+ Colors.ENDC.

(** Lines 475-488: both scans run before either result is looked at. *)
Definition find_ports : M (option Z * option Z) :=
  write_status "Finding available ports..." "INFO" >>
  let* backend_port := find_free_port 8082 10 in
  let* frontend_port := find_free_port 3002 10 in
  (if falsy backend_port then
     write_status "Could not find available port for backend (tried 8082-8091)" "ERROR" >>
     sys_exit 1
   else ret tt) >>
  (if falsy frontend_port then
     write_status "Could not find available port for frontend (tried 3002-3011)" "ERROR" >>
     sys_exit 1
   else ret tt) >>
  write_status ("Backend will use port " +:+ str_port backend_port) "SUCCESS" >>
  write_status ("Frontend will use port " +:+ str_port frontend_port) "SUCCESS" >>
  ret (backend_port, frontend_port).

(** Lines 490-499 *)
Definition check_mongodb : M unit :=
  write_status "Checking MongoDB connection..." "INFO" >>
  let* up := test_port 27017 in
  if up then write_status "MongoDB is running on port 27017" "SUCCESS"
  else
    write_status "MongoDB is not running on port 27017" "ERROR" >>
    print "Please start MongoDB first:" >>
    print "  - Open MongoDB Compass" >>
    print "  - Or run: docker run -d --name mongodb -p 27017:27017 mongo:6.0" >>
    let prompt := "Press Enter to continue anyway, or Ctrl+C to cancel..." in
    ask [Input prompt] (λ t, input_line w t prompt) >>
    ret tt.

(** Lines 501-504 and 538-540 *)
Definition declare_and_trap : M unit :=
  assign (set_backend_process None) >>
  assign (set_frontend_process None) >>
  assign (set_backend_log None) >>
  assign (set_frontend_log None) >>
  emit (SignalHandler 2) >>
  emit (SignalHandler 15).

(** Lines 542-553 *)
Definition choose_maven : M string :=
  write_status "Starting Backend..." "INFO" >>
  let* system := test_command "mvn" in
  if system then ret "mvn"
  else
    let* wrapper := query (λ t, path_exists w t (path_join backend_dir "mvnw")) in
    if wrapper then ret "./mvnw"
    else
      write_status "Neither Maven nor Maven wrapper found!" "ERROR" >>
      sys_exit 1.

(** Lines 555-563 *)
Definition compile_backend (maven_cmd : string) : M unit :=
  write_status "Compiling backend (this may take a moment)..." "INFO" >>
  let* out := run_command (CmdStr (maven_cmd +:+ " clean compile"))
                          (Some backend_dir) true false in
  let '(success, _, stderr) := out in
  if negb success then
    write_status "Backend compilation failed!" "ERROR" >>
    print (nl +:+ Colors.RED +:+ "=== Compilation Error ===" +:+ Colors.ENDC) >>
    print stderr >>
    sys_exit 1
  else write_status "Backend compiled successfully" "SUCCESS".

(** [os.environ.copy()] followed by the assignments to it. *)
Definition backend_env (backend_port : option Z) : environment :=
  <["SERVER_PORT" := str_port backend_port]> (environ w).

Definition frontend_env (backend_port frontend_port : option Z) : environment :=
  <["REACT_APP_API_URL" := "http://localhost:" +:+ str_port backend_port +:+ "/api"]>
    (<["PORT" := str_port frontend_port]> (environ w)).

(** Lines 565-584 *)
Definition spawn_backend (maven_cmd : string) (backend_port : option Z) : M unit :=
  let env := backend_env backend_port in
  try_except
    (let* log := ask [Open backend_log_file "w"]
                     (λ t, open_file w t backend_log_file "w") in
     assign (set_backend_log (Some log)) >>
     let cmd := maven_cmd +:+ " spring-boot:run" in
     let* p := ask [Spawn cmd backend_dir env log]
                   (λ t, popen w t cmd backend_dir env log) in
     assign (set_backend_process (Some p)) >>
     let* full := query (λ t, abspath w t backend_log_file) in
     write_status ("Backend logs: " +:+ full) "INFO")
    is_Exception
    (λ e,
     write_status ("Error starting backend: " +:+ str_exn e) "ERROR" >>
     sys_exit 1).

(** Lines 588-594 and 660-666: [for i in range(30)], left by [break] once
    the started flag is set; the flag is what the loop answers.  [attempt]
    is the body of the loop. *)
Definition attempt (url running : string) : M (option unit) :=
  let* up := check_url url 2 in
  if up then
    write_status running "SUCCESS" >>
    ret (Some tt)
  else
    sleep 2 >>
    print_no_newline "." >>
    ret None.

Definition poll (url running : string) : M bool :=
  let* started := for_each (py_range 0 30) (λ _, attempt url running) in
  ret (bool_decide (is_Some started)).

(** Lines 602-618 and 674-690: show the tail of a log file. *)
Definition show_log (path title : string) : M unit :=
  try_except
    (with_as (ask [Open path "r"] (λ t, open_file w t path "r"))
             (λ log, ask [Close log] (λ t, file_close w t log))
             (λ log,
              let* log_contents := ask [Read log] (λ t, file_read w t log) in
              if negb (String.eqb log_contents "") then
                print (nl +:+ rule) >>
                print (Colors.RED +:+ title +:+ Colors.ENDC) >>
                print rule >>
                let lines := splitlines w log_contents in
                for_in (last_n 100 lines) print >>
                print rule
              else write_status "No logs generated yet" "WARNING"))
    is_Exception
    (λ e, write_status ("Could not read log file: " +:+ str_exn e) "ERROR").

(** Lines 586-620 *)
Definition await_backend (backend_port : option Z) : M unit :=
  write_status "Waiting for backend to start..." "INFO" >>
  let* backend_started :=
    poll (backend_url backend_port)
         ("Backend is running on http://localhost:" +:+ str_port backend_port) in
  if negb backend_started then
    print "" >>
    write_status "Backend failed to start within 60 seconds" "ERROR" >>
    write_status "Reading backend logs..." "INFO" >>
    (let* log := get backend_log in close_log log) >>
    show_log backend_log_file "Backend Startup Logs (last 100 lines):" >>
    cleanup
  else ret tt.

(** Lines 622-634 *)
Definition install_frontend : M unit :=
  print "" >>
  write_status "Starting Frontend..." "INFO" >>
  let* present := query (λ t, path_exists w t (path_join frontend_dir "node_modules")) in
  if negb present then
    write_status "Installing frontend dependencies..." "INFO" >>
    let* out := run_command (CmdStr "npm install") (Some frontend_dir) true false in
    let '(success, _, _) := out in
    if negb success then
      write_status "Failed to install frontend dependencies!" "ERROR" >>
      cleanup
    else ret tt
  else ret tt.

(** Lines 636-656 *)
Definition spawn_frontend (backend_port frontend_port : option Z) : M unit :=
  let env := frontend_env backend_port frontend_port in
  try_except
    (let* log := ask [Open frontend_log_file "w"]
                     (λ t, open_file w t frontend_log_file "w") in
     assign (set_frontend_log (Some log)) >>
     let* p := ask [Spawn "npm start" frontend_dir env log]
                   (λ t, popen w t "npm start" frontend_dir env log) in
     assign (set_frontend_process (Some p)) >>
     let* full := query (λ t, abspath w t frontend_log_file) in
     write_status ("Frontend logs: " +:+ full) "INFO")
    is_Exception
    (λ e,
     write_status ("Error starting frontend: " +:+ str_exn e) "ERROR" >>
     cleanup).

(** Lines 658-690 *)
Definition await_frontend (frontend_port : option Z) : M unit :=
  write_status "Waiting for frontend to start..." "INFO" >>
  let* frontend_started :=
    poll (frontend_url frontend_port)
         ("Frontend is running on http://localhost:" +:+ str_port frontend_port) in
  if negb frontend_started then
    print "" >>
    write_status "Frontend failed to start within 60 seconds" "ERROR" >>
    write_status "Reading frontend logs..." "INFO" >>
    (let* log := get frontend_log in close_log log) >>
    show_log frontend_log_file "Frontend Startup Logs (last 100 lines):"
  else ret tt.

(** Lines 692-708 *)
Definition summary (backend_port frontend_port : option Z) : M unit :=
  print "" >>
  write_status "Medium Blog Platform is running!" "SUCCESS" >>
  print (Colors.GREEN +:+ "=================================" +:+ Colors.ENDC) >>
  print "" >>
  print (Colors.CYAN +:+ "Frontend: http://localhost:" +:+ str_port frontend_port
         +:+ Colors.ENDC) >>
  print (Colors.CYAN +:+ "Backend API: http://localhost:" +:+ str_port backend_port
         +:+ "/api" +:+ Colors.ENDC) >>
  print (Colors.CYAN +:+ "Database: MongoDB on localhost:27017" +:+ Colors.ENDC) >>
  print "" >>
  print (Colors.YELLOW +:+ "Sample Login Credentials:" +:+ Colors.ENDC) >>
  print (Colors.WHITE +:+ "   Username: john_doe | Password: demo123" +:+ Colors.ENDC) >>
  print (Colors.WHITE +:+ "   Username: jane_smith | Password: demo123" +:+ Colors.ENDC) >>
  print "" >>
  print (Colors.RED +:+ "To stop all services: Press Ctrl+C" +:+ Colors.ENDC) >>
  print "" >>
  print (Colors.GREEN +:+ "Services are running. Press Ctrl+C to stop all services..."
         +:+ Colors.ENDC).

(** Lines 471-584: up to the backend's child process. *)
Definition launch_backend : M (option Z * option Z) :=
  print (Colors.BLUE +:+ "Starting Medium Blog Platform (All Services)..."
         +:+ Colors.ENDC) >>
  print (Colors.BLUE +:+ "===============================================" +:+ Colors.ENDC) >>
  print "" >>
  let* ports := find_ports in
  check_mongodb >>
  declare_and_trap >>
  let* maven_cmd := choose_maven in
  compile_backend maven_cmd >>
  spawn_backend maven_cmd (fst ports) >>
  ret ports.

(** Lines 622-656 *)
Definition launch_frontend (ports : option Z * option Z) : M unit :=
  install_frontend >>
  spawn_frontend (fst ports) (snd ports).

(** Lines 471-656: as far as the frontend's health check. *)
Definition launch_both : M (option Z * option Z) :=
  let* ports := launch_backend in
  await_backend (fst ports) >>
  launch_frontend ports >>
  ret ports.

(** Lines 471-708: everything up to the idle loop. *)
Definition launch : M unit :=
  let* ports := launch_both in
  await_frontend (snd ports) >>
  summary (fst ports) (snd ports).

(** Lines 709-713: [while True: time.sleep(1)].  Both signals are trapped by
    [cleanup], so the loop ends when a signal arrives and the handler runs
    inside [time.sleep]; [n] is the number of whole seconds slept before. *)
Fixpoint idle (n : nat) : M unit :=
  match n with
  | O => cleanup
  | S k => sleep 1 >> idle k
  end.

Definition start_all : M unit :=
  launch >>
  try_except (idle (signal_after w)) is_KeyboardInterrupt (λ _, cleanup).

End Script.

(** ** [start_backend] and [start_frontend] (lines 330-458) *)

Section Single.

Variable w : world.

(** [subprocess.run(cmd, cwd=cwd, shell=True, env=env)]: the call creates
    the child and comes back when the child has ended.  The child is
    logged with the environment it is given; its standard output is the
    script's own, descriptor 1. *)
Definition run_child (cmd cwd : string) (env : environment) : M completed :=
  ask [Spawn cmd cwd env 1] (λ t, subprocess_run w t (CmdStr cmd) (Some cwd) true false).

(** The two [except] clauses of lines 396-401 and 453-458: the first that
    matches handles the exception. *)
Definition interrupt_or_error (e : exn) : bool :=
  is_KeyboardInterrupt e || is_Exception e.

(** Lines 332-392: everything [start_backend] does before the child; the
    Maven command and the port are what the last step needs. *)
Definition prepare_backend : M (string * option Z) :=
  print (Colors.BLUE +:+ "Starting Medium Blog Backend..." +:+ Colors.ENDC) >>
  print (Colors.BLUE +:+ "=================================" +:+ Colors.ENDC) >>
  print "" >>
  write_status w "Finding available port for backend..." "INFO" >>
  let* backend_port := find_free_port w 8082 10 in
  (if falsy backend_port then
     write_status w "Could not find available port for backend (tried 8082-8091)" "ERROR" >>
     sys_exit 1
   else ret tt) >>
  write_status w ("Using port " +:+ str_port backend_port +:+ " for backend") "SUCCESS" >>
  check_mongodb w >>
  let* present := query (λ t, path_exists w t backend_dir) in
  (if negb present then
     write_status w "Backend directory not found!" "ERROR" >>
     sys_exit 1
   else ret tt) >>
  let* system := test_command w "mvn" in
  let* maven_cmd :=
    if system then
      write_status w "Using system Maven..." "INFO" >>
      ret "mvn"
    else
      let* wrapper := query (λ t, path_exists w t (path_join backend_dir "mvnw")) in
      if wrapper then
        write_status w "Using Maven wrapper..." "INFO" >>
        ret "./mvnw"
      else
        write_status w "Neither Maven nor Maven wrapper found!" "ERROR" >>
        print "Please install Maven or restore Maven wrapper files." >>
        sys_exit 1 in
  write_status w "Compiling backend..." "INFO" >>
  let* out := run_command w (CmdStr (maven_cmd +:+ " clean compile"))
                          (Some backend_dir) true false in
  let '(success, _, stderr) := out in
  (if negb success then
     write_status w "Backend compilation failed!" "ERROR" >>
     print (nl +:+ Colors.RED +:+ "=== Compilation Error ===" +:+ Colors.ENDC) >>
     print stderr >>
     sys_exit 1
   else ret tt) >>
  write_status w "Backend compiled successfully" "SUCCESS" >>
  write_status w "Starting Spring Boot application..." "INFO" >>
  print (Colors.CYAN +:+ "Backend will be available at: http://localhost:"
         +:+ str_port backend_port +:+ Colors.ENDC) >>
  print (Colors.CYAN +:+ "API endpoints: http://localhost:" +:+ str_port backend_port
         +:+ "/api" +:+ Colors.ENDC) >>
  print "" >>
  print (Colors.YELLOW +:+ "Press Ctrl+C to stop the backend" +:+ Colors.ENDC) >>
  print "" >>
  ret (maven_cmd, backend_port).

(** Lines 394-401: the child, and the two [except] clauses around it. *)
Definition serve_backend (maven_cmd : string) (backend_port : option Z) : M unit :=
  let env := backend_env w backend_port in
  try_except
    (run_child (maven_cmd +:+ " spring-boot:run") backend_dir env >> ret tt)
    interrupt_or_error
    (λ e,
     if is_KeyboardInterrupt e then
       print nl >>
       write_status w "Backend stopped by user" "INFO"
     else
       write_status w ("Error starting backend: " +:+ str_exn e) "ERROR" >>
       sys_exit 1).

Definition start_backend : M unit :=
  let* ready := prepare_backend in
  serve_backend (fst ready) (snd ready).

(** Lines 405-447: everything [start_frontend] does before the child; the
    two ports, backend first, are what the last step needs. *)
Definition prepare_frontend : M (option Z * option Z) :=
  print (Colors.BLUE +:+ "Starting Medium Blog Frontend..." +:+ Colors.ENDC) >>
  print (Colors.BLUE +:+ "==================================" +:+ Colors.ENDC) >>
  print "" >>
  write_status w "Finding available ports..." "INFO" >>
  let* frontend_port := find_free_port w 3002 10 in
  let* backend_port := find_free_port w 8082 10 in
  (if falsy frontend_port then
     write_status w "Could not find available port for frontend (tried 3002-3011)" "ERROR" >>
     sys_exit 1
   else ret tt) >>
  (if falsy backend_port then
     write_status w "Could not find available port for backend (tried 8082-8091)" "ERROR" >>
     sys_exit 1
   else ret tt) >>
  write_status w ("Using port " +:+ str_port frontend_port +:+ " for frontend") "SUCCESS" >>
  write_status w ("Backend is expected on port " +:+ str_port backend_port) "INFO" >>
  let* present := query (λ t, path_exists w t frontend_dir) in
  (if negb present then
     write_status w "Frontend directory not found!" "ERROR" >>
     sys_exit 1
   else ret tt) >>
  let* modules := query (λ t, path_exists w t (path_join frontend_dir "node_modules")) in
  (if negb modules then
     write_status w "Installing frontend dependencies..." "INFO" >>
     let* out := run_command w (CmdStr "npm install") (Some frontend_dir) true false in
     let '(success, _, stderr) := out in
     (if negb success then
        write_status w "Failed to install frontend dependencies!" "ERROR" >>
        print stderr >>
        sys_exit 1
      else ret tt) >>
     write_status w "Frontend dependencies installed successfully" "SUCCESS"
   else ret tt) >>
  write_status w "Starting React development server..." "INFO" >>
  print (Colors.CYAN +:+ "Frontend will be available at: http://localhost:"
         +:+ str_port frontend_port +:+ Colors.ENDC) >>
  print (Colors.CYAN +:+ "Will connect to backend at: http://localhost:"
         +:+ str_port backend_port +:+ "/api" +:+ Colors.ENDC) >>
  print "" >>
  print (Colors.YELLOW +:+ "Press Ctrl+C to stop the frontend" +:+ Colors.ENDC) >>
  print "" >>
  ret (backend_port, frontend_port).

(** Lines 449-458 *)
Definition serve_frontend (backend_port frontend_port : option Z) : M unit :=
  let env := frontend_env w backend_port frontend_port in
  try_except
    (run_child "npm start" frontend_dir env >> ret tt)
    interrupt_or_error
    (λ e,
     if is_KeyboardInterrupt e then
       print nl >>
       write_status w "Frontend stopped by user" "INFO"
     else
       write_status w ("Error starting frontend: " +:+ str_exn e) "ERROR" >>
       sys_exit 1).

Definition start_frontend : M unit :=
  let* ports := prepare_frontend in
  serve_frontend (fst ports) (snd ports).

End Single.

(** ** Worlds to run the script in *)

(** [str.splitlines] restricted to line feeds. *)
Fixpoint lines_from (line : string) (s : string) : list string :=
  match s with
  | EmptyString => if String.eqb line "" then [] else [line]
  | String c rest =>
      if Ascii.eqb c "010"%char then line :: lines_from "" rest
      else lines_from (line +:+ String c "") rest
  end.

(** Every tool is installed, MongoDB listens on 27017 and nothing else is
    bound, every command succeeds, both services answer 200 at once, child
    processes exit when asked to, and a signal arrives after two seconds of
    idling. *)
Definition quiet : world := {|
  now_hms := λ _, "12:00:00";
  which := λ _ _, true;
  connect_ex := λ _ port, if port =? 27017 then 0 else 111;
  path_exists := λ _ _, true;
  abspath := λ _ path, "/srv/blog/" +:+ path;
  subprocess_run := λ _ _ _ _ _, Return (Completed 0 "" "");
  input_line := λ _ _, Return "";
  open_file := λ t _ _, Return (Z.of_nat t);
  file_read := λ _ _, Return ("Tomcat started" +:+ nl +:+ "Port in use" +:+ nl);
  file_close := λ _ _, Return tt;
  popen := λ t _ _ _ _, Return (1000 + Z.of_nat t);
  proc_terminate := λ _ _, Return tt;
  proc_wait := λ _ _ _, Return 0;
  proc_kill := λ _ _, Return tt;
  urlopen := λ _ _ _, Return (Response 200 (Return tt));
  environ := {[ "PATH" := "/usr/bin" ]};
  splitlines := lines_from "";
  signal_after := 2
|}.

Definition with_connect_ex (f : nat → Z → Z) (w : world) : world :=
  World (now_hms w) (which w) f (path_exists w) (abspath w) (subprocess_run w)
        (input_line w) (open_file w) (file_read w) (file_close w) (popen w)
        (proc_terminate w) (proc_wait w) (proc_kill w) (urlopen w) (environ w)
        (splitlines w) (signal_after w).

Definition with_subprocess_run
    (f : nat → command → option string → bool → bool → result completed)
    (w : world) : world :=
  World (now_hms w) (which w) (connect_ex w) (path_exists w) (abspath w) f
        (input_line w) (open_file w) (file_read w) (file_close w) (popen w)
        (proc_terminate w) (proc_wait w) (proc_kill w) (urlopen w) (environ w)
        (splitlines w) (signal_after w).

Definition with_proc_terminate (f : nat → proc → result unit) (w : world) : world :=
  World (now_hms w) (which w) (connect_ex w) (path_exists w) (abspath w)
        (subprocess_run w) (input_line w) (open_file w) (file_read w) (file_close w)
        (popen w) f (proc_wait w) (proc_kill w) (urlopen w) (environ w)
        (splitlines w) (signal_after w).

Definition with_proc_wait (f : nat → proc → Z → result Z) (w : world) : world :=
  World (now_hms w) (which w) (connect_ex w) (path_exists w) (abspath w)
        (subprocess_run w) (input_line w) (open_file w) (file_read w) (file_close w)
        (popen w) (proc_terminate w) f (proc_kill w) (urlopen w) (environ w)
        (splitlines w) (signal_after w).

Definition with_urlopen (f : nat → string → Z → result response) (w : world) : world :=
  World (now_hms w) (which w) (connect_ex w) (path_exists w) (abspath w)
        (subprocess_run w) (input_line w) (open_file w) (file_read w) (file_close w)
        (popen w) (proc_terminate w) (proc_wait w) (proc_kill w) f (environ w)
        (splitlines w) (signal_after w).

(** The state the interpreter enters [start_all] with. *)
Definition boot : state := State None None None None 0.

(** Both services tracked, their logs open. *)
Definition both_up : state := State (Some 100) (Some 200) (Some 3) (Some 4) 0.

(** ** What the world answers, read as the script reads it *)

(** [test_port port] at tick [t] *)
Definition busy (w : world) (t : nat) (port : Z) : bool :=
  connect_ex w t port =? 0.

(** [check_url url timeout] at tick [t] *)
Definition up (w : world) (t : nat) (url : string) (timeout : Z) : bool :=
  match urlopen w t url timeout with
  | Return response =>
      match on_close response with
      | Return _ => status response =? 200
      | Raise _ => false
      end
  | Raise _ => false
  end.

(** The number of HTTP requests among a sequence of operations. *)
Fixpoint attempts (evs : list event) : nat :=
  match evs with
  | [] => O
  | HttpGet _ _ :: rest => S (attempts rest)
  | _ :: rest => attempts rest
  end.

(** The processes sent a termination request, in order. *)
Fixpoint terminations (evs : list event) : list proc :=
  match evs with
  | [] => []
  | Terminate p :: rest => p :: terminations rest
  | _ :: rest => terminations rest
  end.

(** [terminate], [wait] and [kill] calls. *)
Definition is_process_op (e : event) : bool :=
  match e with
  | Terminate _ | Wait _ _ | Kill _ => true
  | _ => false
  end.
Definition process_ops (evs : list event) : list event := List.filter is_process_op evs.

(** The variables [cleanup] reads are the same in both states. *)
Definition same_vars (s s' : state) : Prop :=
  backend_process s' = backend_process s ∧ frontend_process s' = frontend_process s
  ∧ backend_log s' = backend_log s ∧ frontend_log s' = frontend_log s.

(** What [cleanup] may do in state [s]: print, and work on a process that
    is tracked or close the log of a service whose process is tracked. *)
Definition on_tracked (s : state) (e : event) : Prop :=
  match e with
  | Stdout _ => True
  | Terminate p | Wait p _ | Kill p =>
      backend_process s = Some p ∨ frontend_process s = Some p
  | Close f =>
      (is_Some (backend_process s) ∧ backend_log s = Some f)
      ∨ (is_Some (frontend_process s) ∧ frontend_log s = Some f)
  | _ => False
  end.

(** A computation that relates the state it starts in to the state it
    ends in by [R], however it ends, performs only operations in [Q], and
    raises only exceptions in [E]. *)
Definition sound {A} (R : state → state → Prop) (Q : event → Prop) (E : exn → Prop)
    (m : M A) : Prop :=
  ∀ s, R s (final (m s)) ∧ Forall Q (events (m s)) ∧ ∀ x, res (m s) = Raise x → E x.

Definition any_exn (x : exn) : Prop := True.
Definition no_exn (x : exn) : Prop := False.

(** An answer of the world that is not [KeyboardInterrupt] or [SystemExit]. *)
Definition ordinary {A} (r : result A) : Prop :=
  match r with
  | Return _ => True
  | Raise x => is_Exception x = true
  end.

(** Opening, reading and closing files raise nothing but [Exception]s. *)
Definition files_ordinary (w : world) : Prop :=
  ∀ t, (∀ path mode, ordinary (open_file w t path mode))
       ∧ (∀ f, ordinary (file_read w t f))
       ∧ (∀ f, ordinary (file_close w t f)).

(** The state may change in any way. *)
Definition any_state (s s' : state) : Prop := True.

Definition is_spawn (e : event) : bool :=
  match e with Spawn _ _ _ _ => true | _ => false end.

(** What a child process is given when the ports are [ports]: the backend
    the environment of lines 566-567, the frontend that of lines 637-639. *)
Definition child_env (w : world) (ports : option Z * option Z) (e : event) : Prop :=
  match e with
  | Spawn cmd cwd env log =>
      (cwd = backend_dir ∧ env = backend_env w (fst ports))
      ∨ (cwd = frontend_dir ∧ env = frontend_env w (fst ports) (snd ports))
  | _ => True
  end.

(** An exception that some [terminate], [wait] or [kill] on [p] answers. *)
Definition raised_on (w : world) (p : proc) (e : exn) : Prop :=
  ∃ t, proc_terminate w t p = Raise e ∨ proc_wait w t p 5 = Raise e
       ∨ proc_kill w t p = Raise e.

(** The backend is tracked, the frontend was never started. *)
Definition backend_only : state := State (Some 100) None (Some 3) None 0.

(** Terminating the backend (process 100) is refused. *)
Definition refused : world :=
  with_proc_terminate
    (λ _ p, if p =? 100 then Raise (PyError "PermissionError" "Operation not permitted")
            else Return tt) quiet.

(** What [print] leaves on standard output for each of [lines]. *)
Definition printed (lines : list string) : list event :=
  map (λ line, Stdout (line +:+ nl)) lines.


(** The backend does not compile. *)
Definition broken_build : world :=
  with_subprocess_run (λ _ _ _ _ _, Return (Completed 1 "" "BUILD FAILURE")) quiet.

(** No service ever answers. *)
Definition never_up : world :=
  with_urlopen (λ _ _ _, Raise (PyError "URLError" "Connection refused")) quiet.

(** The backend answers 200 on the third request, after two refusals. *)
Definition third_time : world :=
  with_urlopen (λ t _ _, if (t <? 2)%nat
                         then Raise (PyError "URLError" "Connection refused")
                         else Return (Response 200 (Return tt))) quiet.

(** The user presses Ctrl+C while a command is running and no handler is
    installed (as in [invoke_setup]). *)
Definition interrupted : world :=
  with_subprocess_run (λ _ _ _ _ _, Raise KeyboardInterrupt) quiet.

(** Printing and probing a port, nothing else. *)
Definition print_or_probe (e : event) : Prop :=
  match e with
  | Stdout _ | Connect _ => True
  | _ => False
  end.

(** The ports 8082-8091 and 3002-3011 all have a listener. *)
Definition crowded : world :=
  with_connect_ex (λ _ _, 0) quiet.

(** MongoDB is down and standard input is closed. *)
Definition no_mongodb : world :=
  World (now_hms quiet) (which quiet) (λ _ _, 111) (path_exists quiet) (abspath quiet)
        (subprocess_run quiet) (λ _ _, Raise (PyError "EOFError" "EOF when reading a line"))
        (open_file quiet) (file_read quiet) (file_close quiet) (popen quiet)
        (proc_terminate quiet) (proc_wait quiet) (proc_kill quiet) (urlopen quiet)
        (environ quiet) (splitlines quiet) (signal_after quiet).

(** No child ever exits within the five seconds it is given. *)
Definition stuck : world :=
  with_proc_wait (λ _ _ _, Raise (TimeoutExpired "timed out after 5 seconds")) quiet.

(** What [start_all] may connect to and request when the ports it found
    are [ports]. *)
Definition within_reach (ports : option Z * option Z) (e : event) : Prop :=
  match e with
  | Connect port =>
      8082 ≤ port ≤ 8091 ∨ 3002 ≤ port ≤ 3011 ∨ port = 27017
  | HttpGet url timeout =>
      timeout = 2 ∧ (url = backend_url (fst ports) ∨ url = frontend_url (snd ports))
  | _ => True
  end.

(** A computation that sleeps for at most [n] seconds in all. *)
Definition dozes {A} (n : Z) (m : M A) : Prop :=
  ∀ s, 0 ≤ slept (events (m s)) ≤ n.

Definition sleepless (e : event) : Prop :=
  match e with
  | Sleep _ => False
  | _ => True
  end.

(** Commands whose output is captured succeed; a command that writes to
    the terminal, as the server of [start_backend] does, ends with return
    code 1. *)
Definition crashing_child : world :=
  with_subprocess_run (λ _ _ _ _ capture_output,
                         if capture_output then Return (Completed 0 "" "")
                         else Return (Completed 1 "" "")) quiet.

(** The same, with Ctrl+C pressed while the server runs. *)
Definition stopped_child : world :=
  with_subprocess_run (λ _ _ _ _ capture_output,
                         if capture_output then Return (Completed 0 "" "")
                         else Raise KeyboardInterrupt) quiet.

(** How a script that has started its only child ends, given what
    [subprocess.run] answered. *)
Definition after_child (a : result completed) : result unit :=
  match a with
  | Return _ => Return tt
  | Raise e =>
      if is_KeyboardInterrupt e then Return tt
      else if is_Exception e then Raise (SystemExit 1)
      else Raise e
  end.

(** [run_command(cmd, cwd=cwd, shell=True)] came back with success at some
    moment: the command ran and its return code was 0. *)
Definition succeeded (w : world) (cmd cwd : string) : Prop :=
  ∃ t c, subprocess_run w t (CmdStr cmd) (Some cwd) true true = Return c
         ∧ returncode c = 0.

(** A request to [url] was answered with status 200 at some moment, and the
    response could be closed. *)
Definition answered (w : world) (url : string) : Prop :=
  ∃ t response, urlopen w t url 2 = Return response
                ∧ status response = 200 ∧ on_close response = Return tt.

(** Probing one of the ports the script scans, or MongoDB's, and no HTTP
    request. *)
Definition probes_nearby (e : event) : Prop :=
  match e with
  | Connect port => 8082 ≤ port ≤ 8091 ∨ 3002 ≤ port ≤ 3011 ∨ port = 27017
  | HttpGet _ _ => False
  | _ => True
  end.

(** What the idle loop and [cleanup] do: print, sleep, close a log, and
    work on a process. *)
Definition winding_down (e : event) : Prop :=
  match e with
  | Stdout _ | Sleep _ | Close _ | Terminate _ | Wait _ _ | Kill _ => True
  | _ => False
  end.

(** An exception that one of the world's operations answers with. *)
Definition from_world (w : world) (x : exn) : Prop :=
  (∃ t cmd cwd shell capture_output,
      subprocess_run w t cmd cwd shell capture_output = Raise x)
  ∨ (∃ t prompt, input_line w t prompt = Raise x)
  ∨ (∃ t path mode, open_file w t path mode = Raise x)
  ∨ (∃ t f, file_read w t f = Raise x)
  ∨ (∃ t f, file_close w t f = Raise x)
  ∨ (∃ t cmd cwd env log, popen w t cmd cwd env log = Raise x)
  ∨ (∃ t p, proc_terminate w t p = Raise x)
  ∨ (∃ t p timeout, proc_wait w t p timeout = Raise x)
  ∨ (∃ t p, proc_kill w t p = Raise x)
  ∨ (∃ t url timeout, urlopen w t url timeout = Raise x).

(** No operation of the world raises [SystemExit]: only the script's own
    [sys.exit] calls do. *)
Definition never_exits (w : world) : Prop :=
  ∀ x code, from_world w x → x ≠ SystemExit code.

(** If it is a [SystemExit], its status is 0. *)
Definition exit_0_only (x : exn) : Prop :=
  ∀ code, x = SystemExit code → code = 0.

(** ** Running a computation *)

Section Runs.

Context {A B : Type}.


Lemma bind_res (m : M A) (k : A → M B) s :
  res (bind m k s) =
    match res (m s) with
    | Return a => res (k a (final (m s)))
    | Raise x => Raise x
    end.
Proof. unfold bind. destruct (m s) as [[a|x] s1 e1]; cbn; [|done]. by destruct (k a s1). Qed.


Lemma bind_events (m : M A) (k : A → M B) s :
  events (bind m k s) =
    (events (m s) ++ match res (m s) with
                     | Return a => events (k a (final (m s)))
                     | Raise x => []
                     end)%list.
Proof.
  unfold bind. destruct (m s) as [[a|x] s1 e1]; cbn; [|by rewrite app_nil_r].
  by destruct (k a s1).
Qed.

Lemma bind_never_returns (m : M A) (k : A → M B) s b :
  (∀ a s', res (k a s') ≠ Return b) → res (bind m k s) ≠ Return b.
Proof. intros Hk. rewrite bind_res. by destruct (res (m s)). Qed.

Lemma bind_get {S} (field : state → S) (k : S → M B) s :
  bind (get field) k s = k (field s) s.
Proof. unfold bind, get. by destruct (k (field s) s) as [[]]. Qed.

End Runs.

(** ** The port scan *)

Section PortScan.

Context (w : world).

Lemma py_range_nil a b : b ≤ a → py_range a b = [].
Proof. intros H. unfold py_range. by replace (Z.to_nat (b - a)) with O by lia. Qed.

Lemma py_range_cons a b : a < b → py_range a b = a :: py_range (a + 1) b.
Proof.
  intros H. unfold py_range.
  replace (Z.to_nat (b - a)) with (S (Z.to_nat (b - (a + 1)))) by lia.
  simpl. f_equal; [lia|].
  rewrite <- seq_shift, map_map. apply map_ext. intros i. lia.
Qed.

Lemma test_port_run port s :
  0 ≤ port ≤ 65535 →
  test_port w port s = Ran (Return (busy w (tick s) port)) (next_tick s) [Connect port].
Proof.
  intros Hport. unfold test_port, bind, ask, valid_port.
  replace (0 <=? port) with true by lia. by replace (port <=? 65535) with true by lia.
Qed.

Lemma test_port_overflow port s :
  ¬ 0 ≤ port ≤ 65535 →
  test_port w port s =
    Ran (Raise (PyError "OverflowError" "connect_ex(): port must be 0-65535."))
        (next_tick s) [Connect port].
Proof.
  intros Hport. unfold test_port, bind, ask, valid_port.
  destruct (0 <=? port) eqn:Hlow; [|done].
  by replace (port <=? 65535) with false by lia.
Qed.

Lemma find_free_port_nil start n s :
  n ≤ 0 → find_free_port w start n s = Ran (Return None) s [].
Proof. intros H. unfold find_free_port. by rewrite py_range_nil by lia. Qed.

Lemma find_free_port_step start n s :
  0 < n → 0 ≤ start ≤ 65535 →
  find_free_port w start n s =
    if busy w (tick s) start
    then let r := find_free_port w (start + 1) (n - 1) (next_tick s) in
         Ran (res r) (final r) (Connect start :: events r)
    else Ran (Return (Some start)) (next_tick s) [Connect start].
Proof.
  intros H Hstart. unfold find_free_port. rewrite (py_range_cons start) by lia.
  replace (start + 1 + (n - 1)) with (start + n) by lia.
  cbn [for_each]. unfold bind at 1 2. rewrite test_port_run by done.
  destruct (busy w (tick s) start); [|done].
  cbn [negb ret res final events app]. by destruct (for_each _ _ _).
Qed.

(** The loop of [find_free_port] over a range of [n] ports: either it
    returns the port at the first offset [i] whose probe found nothing, or
    all [n] probes found a listener. *)
Lemma scan_outcome (n : nat) : ∀ start s,
  0 ≤ start → start + Z.of_nat n ≤ 65536 →
  let r := find_free_port w start (Z.of_nat n) s in
  let probe := λ i : nat, busy w (tick s + i) (start + Z.of_nat i) in
  (∃ i : nat, (i < n)%nat ∧ res r = Return (Some (start + Z.of_nat i))
      ∧ probe i = false ∧ (∀ j, (j < i)%nat → probe j = true)
      ∧ events r = map Connect (py_range start (start + Z.of_nat i + 1)))
  ∨ (res r = Return None ∧ (∀ j, (j < n)%nat → probe j = true)
      ∧ events r = map Connect (py_range start (start + Z.of_nat n))).
Proof.
  induction n as [|n IH]; intros start s Hlow Hhigh; cbv zeta.
  - right. rewrite find_free_port_nil, py_range_nil by lia.
    split; [done|]. split; [|done]. intros j Hj. lia.
  - rewrite find_free_port_step by lia.
    replace (Z.of_nat (S n) - 1) with (Z.of_nat n) by lia.
    destruct (busy w (tick s) start) eqn:Hb.
    + specialize (IH (start + 1) (next_tick s) ltac:(lia) ltac:(lia)). cbv zeta in IH.
      cbn [res final events tick next_tick] in *.
      assert (Hshift : ∀ P : nat → Z → bool, P (tick s) start = true →
        ∀ k, (∀ j, (j < k)%nat → P (S (tick s) + j)%nat (start + 1 + Z.of_nat j) = true) →
        ∀ j, (j < S k)%nat → P (tick s + j)%nat (start + Z.of_nat j) = true).
      { intros P H0 k Hk [|j] Hj.
        - by rewrite Nat.add_0_r, Z.add_0_r.
        - replace (tick s + S j)%nat with (S (tick s) + j)%nat by lia.
          replace (start + Z.of_nat (S j)) with (start + 1 + Z.of_nat j) by lia.
          apply Hk. lia. }
      destruct IH as [(i & Hi & Hres & Hfree & Hbefore & Hev)|(Hres & Hall & Hev)].
      * left. exists (S i). split; [lia|].
        replace (start + Z.of_nat (S i)) with (start + 1 + Z.of_nat i) by lia.
        replace (tick s + S i)%nat with (S (tick s) + i)%nat by lia.
        split; [done|]. split; [done|]. split; [by apply (Hshift (busy w))|].
        rewrite Hev. by rewrite (py_range_cons start) by lia.
      * right. split; [done|]. split; [by apply (Hshift (busy w))|].
        rewrite Hev.
        replace (start + Z.of_nat (S n)) with (start + 1 + Z.of_nat n) by lia.
        by rewrite (py_range_cons start (start + 1 + _)) by lia.
    + left. exists O. split; [lia|]. cbn [res events].
      rewrite Nat.add_0_r, Z.add_0_r. split; [done|]. split; [done|].
      split; [intros j Hj; lia|].
      rewrite py_range_cons by lia. by rewrite py_range_nil by lia.
Qed.

End PortScan.

Lemma py_range_clip a n : py_range a (a + n) = py_range a (a + Z.of_nat (Z.to_nat n)).
Proof. unfold py_range. do 2 f_equal. lia. Qed.

(** C4: when every number of the range [start, start+max_attempts) is a
    port number (0-65535), [find_free_port start max_attempts] probes the
    ports [start], [start+1], ... in ascending order, one [test_port] each,
    and returns the first port whose probe answers false; it returns [None]
    exactly when every probe in the range answers true.  The ports probed
    are the range from [start] up to the port returned (or the whole
    range).  With 8082, 8083 and 8084 occupied and 8085 free, the scan from
    8082 with the default of 10 attempts returns 8085. *)
Theorem find_free_port_first_free (w : world) (s : state) (start max_attempts : Z) :
  (∀ port, start ≤ port < start + max_attempts → 0 ≤ port ≤ 65535) →
  let r := find_free_port w start max_attempts s in
  let probe := λ i : nat, busy w (tick s + i) (start + Z.of_nat i) in
  (∀ p, res r = Return (Some p) ↔
        ∃ i : nat, p = start + Z.of_nat i ∧ Z.of_nat i < max_attempts
                   ∧ probe i = false ∧ ∀ j, (j < i)%nat → probe j = true)
  ∧ (res r = Return None ↔ ∀ i : nat, Z.of_nat i < max_attempts → probe i = true)
  ∧ events r = map Connect (py_range start
                 match res r with
                 | Return (Some p) => p + 1
                 | _ => start + max_attempts
                 end)
  ∧ ((∀ t, busy w t 8082 = true) → (∀ t, busy w t 8083 = true) →
     (∀ t, busy w t 8084 = true) → (∀ t, busy w t 8085 = false) →
     res (find_free_port w 8082 10 s) = Return (Some 8085)).
Proof.
  assert (Hgen : ∀ start max_attempts,
    (∀ port, start ≤ port < start + max_attempts → 0 ≤ port ≤ 65535) →
    let r := find_free_port w start max_attempts s in
    let probe := λ i : nat, busy w (tick s + i) (start + Z.of_nat i) in
    (∀ p, res r = Return (Some p) ↔
          ∃ i : nat, p = start + Z.of_nat i ∧ Z.of_nat i < max_attempts
                     ∧ probe i = false ∧ ∀ j, (j < i)%nat → probe j = true)
    ∧ (res r = Return None ↔ ∀ i : nat, Z.of_nat i < max_attempts → probe i = true)
    ∧ events r = map Connect (py_range start
                   match res r with
                   | Return (Some p) => p + 1
                   | _ => start + max_attempts
                   end)).
  { clear start max_attempts. intros start max_attempts Hports r probe.
    destruct (Z.le_gt_cases max_attempts 0) as [Hnone|Hsome].
    { subst r probe. cbv beta. rewrite find_free_port_nil by done. cbn [res events].
      split; [|split].
      - intros p. split; [done|]. intros (i & _ & Hi & _). lia.
      - split; [|done]. intros _ i Hi. lia.
      - by rewrite py_range_nil by lia. }
    assert (Hr : r = find_free_port w start (Z.of_nat (Z.to_nat max_attempts)) s).
    { subst r. unfold find_free_port. by rewrite py_range_clip. }
    pose proof (scan_outcome w (Z.to_nat max_attempts) start s) as Hscan.
    cbv zeta in Hscan. rewrite <- Hr in Hscan. subst probe. cbv beta.
    destruct Hscan as [(i & Hi & Hres & Hfree & Hbefore & Hev)|(Hres & Hall & Hev)].
    { pose proof (Hports start). lia. }
    { pose proof (Hports (start + max_attempts - 1)). lia. }
    - split; [|split].
      + intros p. rewrite Hres. split.
        * intros [= <-]. exists i. repeat split; [lia|done|done].
        * intros (k & -> & Hk & Hkfree & Hkbefore).
          destruct (lt_eq_lt_dec k i) as [[Hlt| ->]|Hgt]; [|done|].
          -- rewrite (Hbefore k Hlt) in Hkfree. done.
          -- rewrite (Hkbefore i Hgt) in Hfree. done.
      + rewrite Hres. split; [done|]. intros Hbusy.
        rewrite Hbusy in Hfree by lia. done.
      + by rewrite Hres, Hev.
    - split; [|split].
      + intros p. rewrite Hres. split; [done|].
        intros (k & -> & Hk & Hkfree & _). rewrite Hall in Hkfree by lia. done.
      + rewrite Hres. split; [|done]. intros _ i Hi. apply Hall. lia.
      + rewrite Hres, Hev. by rewrite <- py_range_clip. }
  intros Hports. cbv zeta. destruct (Hgen start max_attempts Hports) as (H1 & H2 & H3).
  split; [done|]. split; [done|]. split; [done|].
  intros B2 B3 B4 F5. apply (Hgen 8082 10); [lia|]. exists 3%nat.
  split; [done|]. split; [done|]. split; [apply F5|].
  intros j Hj. destruct j as [|[|[|j]]]; [apply B2|apply B3|apply B4|lia].
Qed.

(** C4 at work: the ports 8082-8084 are taken, 8085 is not. *)
Lemma find_free_port_first_free_witness :
  res (find_free_port
         (with_connect_ex (λ _ port, if (8082 <=? port) && (port <=? 8084) then 0 else 111)
                          quiet)
         8082 10 boot) = Return (Some 8085).
Proof.
  destruct (find_free_port_first_free
              (with_connect_ex
                 (λ _ port, if (8082 <=? port) && (port <=? 8084) then 0 else 111) quiet)
              boot 8082 10) as (_ & _ & _ & Hscenario); [lia|].
  apply Hscenario; intros t; reflexivity.
Defined.

(** C4 as stated fails at the upper end of the port numbers: with every
    port from 65530 on occupied, the scan from 65530 with the default of 10
    attempts does not return [None].  Its seventh probe is of 65536, which
    is not a port number: [connect_ex] raises [OverflowError], and so does
    [find_free_port], after six probes that answered true. *)
Lemma find_free_port_overflows :
  let r := find_free_port crowded 65530 10 boot in
  res r = Raise (PyError "OverflowError" "connect_ex(): port must be 0-65535.")
  ∧ res r ≠ Return None
  ∧ (∀ i : nat, (i < 6)%nat → busy crowded i (65530 + Z.of_nat i) = true)
  ∧ events r = map Connect (py_range 65530 65537).
Proof. vm_compute. repeat split. discriminate. Qed.

(** ** [check_url] and [run_command] *)

Lemma check_url_run w url timeout s :
  check_url w url timeout s =
    Ran (Return (up w (tick s) url timeout)) (next_tick s) [HttpGet url timeout].
Proof.
  unfold check_url, up, try_except, with_as, bind, ask, ret, answer.
  cbn [res final events].
  destruct (urlopen w (tick s) url timeout) as [[st [[]|e]]|e]; reflexivity.
Qed.

(** C5: [check_url] never raises.  It answers true exactly when the request
    returned a response, the response's status is 200 and leaving the [with]
    block succeeded; any exception of the request, and any other status,
    make it answer false. *)
Theorem check_url_never_raises (w : world) (url : string) (timeout : Z) (s : state) :
  ∃ b : bool,
    res (check_url w url timeout s) = Return b
    ∧ (b = true ↔ ∃ response, urlopen w (tick s) url timeout = Return response
                              ∧ status response = 200
                              ∧ on_close response = Return tt)
    ∧ (∀ e, urlopen w (tick s) url timeout = Raise e → b = false)
    ∧ (∀ response, urlopen w (tick s) url timeout = Return response →
                   status response ≠ 200 → b = false).
Proof.
  unfold check_url, try_except, with_as, bind, ask, ret, answer.
  cbn [res final events].
  destruct (urlopen w (tick s) url timeout) as [[st [[]|x]]|x]; cbn.
  - exists (st =? 200). split; [done|]. split; [split|split].
    + intros H%Z.eqb_eq. by exists (Response st (Return tt)).
    + intros (r & [= <-] & Hst & _). by apply Z.eqb_eq.
    + intros e [=].
    + intros r [= <-] Hst. by apply Z.eqb_neq.
  - exists false. split; [done|]. split; [split|split]; try done.
    intros (r & [= <-] & _ & [=]).
  - exists false. split; [done|]. split; [split|split]; try done.
    intros (r & [=] & _).
Qed.

(** C5 at work: a 200 is true, a 404 reported as a response is false. *)
Lemma check_url_never_raises_witness :
  res (check_url quiet "http://localhost:8082/api/posts" 2 boot) = Return true
  ∧ res (check_url never_up "http://localhost:8082/api/posts" 2 boot) = Return false.
Proof.
  split.
  - destruct (check_url_never_raises quiet "http://localhost:8082/api/posts" 2 boot)
      as (b & Hres & Htrue & _).
    rewrite Hres. f_equal. apply Htrue. by exists (Response 200 (Return tt)).
  - destruct (check_url_never_raises never_up "http://localhost:8082/api/posts" 2 boot)
      as (b & Hres & _ & Hraise & _).
    rewrite Hres. f_equal. by eapply Hraise.
Defined.

(** C10, as the code has it: [run_command] answers the triple of the
    completed command (with empty output strings under [show_output]), and
    turns an exception into [(False, "", str(e))] when the exception is an
    instance of [Exception]; one that is not ([KeyboardInterrupt],
    [SystemExit]) leaves [run_command]. *)
Theorem run_command_catches_Exception (w : world) (cmd : command)
    (cwd : option string) (shell show_output : bool) (s : state) :
  let r := run_command w cmd cwd shell show_output s in
  match subprocess_run w (tick s) (argv cmd shell) cwd shell (negb show_output) with
  | Return result =>
      res r = Return (returncode result =? 0,
                      if show_output then "" else stdout result,
                      if show_output then "" else stderr result)
  | Raise e =>
      res r = if is_Exception e then Return (false, "", str_exn e) else Raise e
  end.
Proof.
  unfold run_command, try_except, bind, ask, ret.
  destruct show_output; cbn [negb res final events];
    destruct (subprocess_run w (tick s) (argv cmd shell) cwd shell _) as [c|e];
    cbn [res]; try reflexivity; by destruct (is_Exception e).
Qed.

(** C10 as stated fails: Ctrl+C while the command runs raises
    [KeyboardInterrupt] inside [subprocess.run], and [run_command] lets it
    through. *)
Lemma run_command_raises_KeyboardInterrupt :
  res (run_command interrupted (CmdStr "npm install") (Some "frontend") true false boot)
  = Raise KeyboardInterrupt.
Proof. reflexivity. Qed.

(** ** The health-poll loop *)

Section Poll.

Context (w : world) (url running : string).

Lemma write_status_run message msg_type s :
  write_status w message msg_type s =
    Ran (Return tt) (next_tick s)
        [Stdout (status_text (now_hms w (tick s)) message msg_type +:+ nl)].
Proof. reflexivity. Qed.

Lemma attempt_run s :
  attempt w url running s =
    if up w (tick s) url 2
    then Ran (Return (Some tt)) (next_tick (next_tick s))
             [HttpGet url 2;
              Stdout (status_text (now_hms w (S (tick s))) running "SUCCESS" +:+ nl)]
    else Ran (Return None) (next_tick s) [HttpGet url 2; Sleep 2; Stdout "."].
Proof.
  unfold attempt, bind at 1. rewrite check_url_run. cbn [res final events].
  by destruct (up w (tick s) url 2).
Qed.

(** The loop over any number of rounds: it stops at the first round [k]
    whose request succeeds, having slept after each of the [k] rounds
    before; or every round fails and each is followed by a sleep. *)
Lemma rounds_outcome {X} (xs : list X) : ∀ s,
  let r := for_each xs (λ _, attempt w url running) s in
  let probe := λ j : nat, up w (tick s + j) url 2 in
  (∃ k : nat, (k < length xs)%nat ∧ probe k = true
      ∧ (∀ j, (j < k)%nat → probe j = false)
      ∧ res r = Return (Some tt)
      ∧ attempts (events r) = S k ∧ slept (events r) = 2 * Z.of_nat k)
  ∨ ((∀ j, (j < length xs)%nat → probe j = false)
      ∧ res r = Return None
      ∧ attempts (events r) = length xs
      ∧ slept (events r) = 2 * Z.of_nat (length xs)).
Proof.
  induction xs as [|x xs IH]; intros s; cbv zeta.
  - right. cbn. split; [intros j Hj; lia|done].
  - cbn [for_each]. unfold bind. rewrite attempt_run.
    destruct (up w (tick s) url 2) eqn:Hup; cbn [res final events ret app].
    + left. exists O. rewrite Nat.add_0_r. cbn.
      split; [lia|]. split; [done|]. split; [intros j Hj; lia|done].
    + specialize (IH (next_tick s)). cbv zeta in IH.
      destruct (for_each xs _ (next_tick s)) as [r1 s1 e1].
      cbn [res final events tick next_tick length attempts slept] in *.
      assert (Hshift : ∀ k,
        (∀ j, (j < k)%nat → up w (S (tick s) + j) url 2 = false) →
        ∀ j, (j < S k)%nat → up w (tick s + j) url 2 = false).
      { intros k Hk [|j] Hj; [by rewrite Nat.add_0_r|].
        replace (tick s + S j)%nat with (S (tick s) + j)%nat by lia.
        apply Hk. lia. }
      destruct IH as [(k & Hk & Hok & Hbefore & Hres & Hn & Hz)|(Hall & Hres & Hn & Hz)].
      * left. exists (S k). split; [lia|].
        replace (tick s + S k)%nat with (S (tick s) + k)%nat by lia.
        split; [done|]. split; [by apply Hshift|]. split; [done|].
        split; [by rewrite Hn|]. rewrite Hz. lia.
      * right. split; [by apply Hshift|]. split; [done|].
        split; [by rewrite Hn|]. rewrite Hz. lia.
Qed.

Lemma poll_unfold s :
  poll w url running s =
    let r := for_each (py_range 0 30) (λ _, attempt w url running) s in
    Ran (match res r with
         | Return started => Return (bool_decide (is_Some started))
         | Raise e => Raise e
         end) (final r) (events r).
Proof.
  unfold poll, bind.
  destruct (for_each _ _ s) as [[started|e] s1 e1]; cbn; [|done].
  by rewrite app_nil_r.
Qed.

End Poll.

(** C3, as the code has it: when the request first succeeds on attempt [K]
    (1 <= K <= 30) the loop answers true after [K] attempts and
    [(K - 1) * 2] seconds of sleep; when all 30 attempts fail it answers
    false after 30 attempts and [30 * 2] seconds of sleep, because the sleep
    follows every failed attempt, the last one too. *)
Theorem poll_sleeps_after_each_failure (w : world) (url running : string) (s : state) :
  let r := poll w url running s in
  let probe := λ j : nat, up w (tick s + j) url 2 in
  (∀ K : nat, (1 ≤ K ≤ 30)%nat →
     (∀ j, (j < K - 1)%nat → probe j = false) → probe (K - 1)%nat = true →
     res r = Return true ∧ attempts (events r) = K
     ∧ slept (events r) = (Z.of_nat K - 1) * 2)
  ∧ ((∀ j, (j < 30)%nat → probe j = false) →
     res r = Return false ∧ attempts (events r) = 30%nat
     ∧ slept (events r) = 30 * 2).
Proof.
  cbv zeta. rewrite poll_unfold. cbv zeta.
  pose proof (rounds_outcome w url running (py_range 0 30) s) as Hloop.
  cbv zeta in Hloop.
  destruct (for_each (py_range 0 30) _ s) as [r1 s1 e1].
  cbn [res final events] in *.
  replace (length (py_range 0 30)) with 30%nat in Hloop by reflexivity.
  destruct Hloop as [(k & Hk & Hok & Hbefore & -> & Hn & Hz)|(Hall & -> & Hn & Hz)].
  - split.
    + intros K HK Hfail Hsucc.
      assert (k = (K - 1)%nat) as ->.
      { destruct (lt_eq_lt_dec k (K - 1)) as [[Hlt|Heq]|Hgt]; [|done|].
        - rewrite (Hfail k Hlt) in Hok. done.
        - rewrite (Hbefore _ Hgt) in Hsucc. done. }
      split; [done|]. split; lia.
    + intros Hfail. rewrite (Hfail k Hk) in Hok. done.
  - split.
    + intros K HK _ Hsucc. rewrite Hall in Hsucc by lia. done.
    + intros _. split; [done|]. split; lia.
Qed.

(** C3 at work: 200 on the third request gives true after 3 attempts and 4
    seconds; a service that never answers gives false after 30 attempts and
    60 seconds. *)
Lemma poll_sleeps_after_each_failure_witness :
  (let r := poll third_time "http://localhost:8082/api/posts" "Backend is running" boot in
   res r = Return true ∧ attempts (events r) = 3%nat ∧ slept (events r) = (3 - 1) * 2)
  ∧ (let r := poll never_up "http://localhost:8082/api/posts" "Backend is running" boot in
     res r = Return false ∧ attempts (events r) = 30%nat ∧ slept (events r) = 30 * 2).
Proof.
  split.
  - destruct (poll_sleeps_after_each_failure third_time
                "http://localhost:8082/api/posts" "Backend is running" boot)
      as [Hfirst _].
    apply (Hfirst 3%nat); [lia| |reflexivity].
    intros [|[|j]] Hj; [reflexivity|reflexivity|simpl in Hj; lia].
  - destruct (poll_sleeps_after_each_failure never_up
                "http://localhost:8082/api/posts" "Backend is running" boot)
      as [_ Hnever].
    apply Hnever. intros j _. reflexivity.
Defined.

(** C3 as stated fails when the attempts run out: 30 attempts were made and
    60 seconds slept, not (30 - 1) * 2 = 58. *)
Lemma poll_exhausted_sleeps_60 :
  let r := poll never_up "http://localhost:8082/api/posts" "Backend is running" boot in
  res r = Return false
  ∧ attempts (events r) = 30%nat
  ∧ slept (events r) = 60
  ∧ slept (events r) ≠ (Z.of_nat (attempts (events r)) - 1) * 2.
Proof. vm_compute. repeat split; discriminate. Qed.

(** ** Stopping one service *)

Lemma terminations_app evs evs' :
  terminations (evs ++ evs') = (terminations evs ++ terminations evs')%list.
Proof.
  induction evs as [|e evs IH]; [done|].
  destruct e; cbn [app terminations]; by rewrite ?IH.
Qed.

Lemma process_ops_app evs evs' :
  process_ops (evs ++ evs') = (process_ops evs ++ process_ops evs')%list.
Proof. apply List.filter_app. Qed.

Lemma same_vars_refl s : same_vars s s.
Proof. by repeat split. Qed.

Lemma same_vars_trans s1 s2 s3 : same_vars s1 s2 → same_vars s2 s3 → same_vars s1 s3.
Proof. unfold same_vars. intros (-> & -> & -> & ->) (-> & -> & -> & ->). done. Qed.

Lemma same_vars_next_tick s : same_vars s (next_tick s).
Proof. by repeat split. Qed.

Section Stop.

Context (w : world) (name : string).
Context (process : state → option proc) (log : state → option file).
Hypothesis log_next_tick : ∀ s, log (next_tick s) = log s.

Ltac run_halt :=
  cbv beta iota zeta delta
    [halt bind try_except get close_log terminate wait kill ask raise ret
     write_status query print emit anything res final events app];
  rewrite ?log_next_tick.

Ltac branch :=
  repeat match goal with
         | |- context [match ?x with _ => _ end] =>
             lazymatch x with
             | context [match _ with _ => _ end] => fail
             | _ => tryif is_var x then fail else destruct x eqn:?
             end
         end.

Lemma stop_untracked s :
  process s = None → stop w name process log s = Ran (Return tt) s [].
Proof. intros H. unfold stop. by rewrite bind_get, H. Qed.

Lemma stop_tracked s p :
  process s = Some p → stop w name process log s = halt w name p log s.
Proof.
  intros H. unfold stop. by rewrite bind_get, H.
Qed.

Lemma halt_same_vars s p : same_vars s (final (halt w name p log s)).
Proof. run_halt. branch; by repeat split. Qed.

Lemma halt_tick s p : (tick s ≤ tick (final (halt w name p log s)))%nat.
Proof. run_halt. branch; cbn; lia. Qed.

Lemma halt_terminations s p : terminations (events (halt w name p log s)) = [p].
Proof. run_halt. branch; reflexivity. Qed.

(** The block touches nothing but its own process and log. *)
Lemma halt_events s p e :
  e ∈ events (halt w name p log s) →
  match e with
  | Stdout _ => True
  | Terminate q | Wait q _ | Kill q => q = p
  | Close f => log s = Some f
  | _ => False
  end.
Proof.
  run_halt.
  branch; intros Hin; repeat (apply elem_of_cons in Hin as [->|Hin]; [done|]);
    by apply elem_of_nil in Hin.
Qed.

(** It gets through when [terminate] and [kill] answer and [wait] raises
    nothing but [TimeoutExpired]; what closing the log does is irrelevant. *)
Lemma halt_through s p :
  (∀ t, proc_terminate w t p = Return tt) →
  (∀ t, match proc_wait w t p 5 with
        | Return _ => True
        | Raise e => is_TimeoutExpired e = true
        end) →
  (∀ t, proc_kill w t p = Return tt) →
  res (halt w name p log s) = Return tt.
Proof.
  intros Hterm Hwait Hkill. run_halt.
  destruct (log s) as [f|]; [destruct (file_close w _ f)|];
    rewrite Hterm;
    match goal with |- context [proc_wait w ?t p 5] =>
      specialize (Hwait t); destruct (proc_wait w t p 5) as [rc|x] end;
    try rewrite Hwait; try rewrite Hkill; done.
Qed.

(** An exception that leaves the block is one its process raised. *)
Lemma halt_raise s p e :
  res (halt w name p log s) = Raise e → raised_on w p e.
Proof. run_halt. unfold raised_on. branch; intros [= <-]; eauto. Qed.

(** On a process that has exited, [terminate] and [wait] answer at once:
    the block calls them and goes no further. *)
Lemma halt_exited s p :
  (∀ t, (tick s ≤ t)%nat → proc_terminate w t p = Return tt) →
  (∀ t, (tick s ≤ t)%nat → ∃ rc, proc_wait w t p 5 = Return rc) →
  let r := halt w name p log s in
  res r = Return tt ∧ process_ops (events r) = [Terminate p; Wait p 5].
Proof.
  intros Hterm Hwait. run_halt.
  destruct (log s) as [f|]; [destruct (file_close w _ f)|];
    rewrite Hterm by (cbn; lia);
    match goal with |- context [proc_wait w ?t p 5] =>
      destruct (Hwait t) as [rc ->]; [cbn; lia|] end; done.
Qed.

End Stop.

Section StopService.

Context (w : world) (name : string).
Context (process : state → option proc) (log : state → option file).
Hypothesis log_next_tick : ∀ s, log (next_tick s) = log s.

Lemma stop_same_vars s : same_vars s (final (stop w name process log s)).
Proof.
  destruct (process s) as [p|] eqn:Hp.
  - rewrite (stop_tracked _ _ _ _ _ _ Hp). by apply halt_same_vars.
  - rewrite (stop_untracked _ _ _ _ _ Hp). apply same_vars_refl.
Qed.

Lemma stop_events s e :
  e ∈ events (stop w name process log s) →
  match e with
  | Stdout _ => True
  | Terminate p | Wait p _ | Kill p => process s = Some p
  | Close f => is_Some (process s) ∧ log s = Some f
  | _ => False
  end.
Proof.
  destruct (process s) as [p|] eqn:Hp.
  - rewrite (stop_tracked _ _ _ _ _ _ Hp). intros Hin.
    apply halt_events in Hin; [|done]. destruct e; naive_solver.
  - rewrite (stop_untracked _ _ _ _ _ Hp). intros Hin. by apply elem_of_nil in Hin.
Qed.

Lemma stop_raise s e :
  res (stop w name process log s) = Raise e →
  ∃ p, process s = Some p ∧ raised_on w p e.
Proof.
  destruct (process s) as [p|] eqn:Hp.
  - rewrite (stop_tracked _ _ _ _ _ _ Hp). intros H. exists p. split; [done|].
    by eapply halt_raise.
  - by rewrite (stop_untracked _ _ _ _ _ Hp).
Qed.

End StopService.

(** ** [cleanup] *)

Section Cleanup.

Context (w : world).

(** [cleanup] as its two blocks in sequence. *)
Lemma cleanup_unfold s :
  cleanup w s =
    let rb := stop w "backend" backend_process backend_log (next_tick s) in
    let header := [Stdout (nl +:+ nl);
                   Stdout (status_text (now_hms w (tick s)) "Stopping services..." "INFO"
                           +:+ nl)] in
    match res rb with
    | Raise e => Ran (Raise e) (final rb) (header ++ events rb)
    | Return _ =>
        let rf := stop w "frontend" frontend_process frontend_log (final rb) in
        match res rf with
        | Raise e => Ran (Raise e) (final rf) (header ++ events rb ++ events rf)
        | Return _ =>
            Ran (Raise (SystemExit 0)) (next_tick (final rf))
                (header ++ events rb ++ events rf
                 ++ [Stdout (status_text (now_hms w (tick (final rf)))
                                         "Services stopped." "SUCCESS" +:+ nl)])
        end
    end.
Proof.
  cbv beta iota zeta delta
    [cleanup bind print emit write_status query ask ret sys_exit raise res final
     events].
  destruct (stop w "backend" _ _ _) as [[[]|e] sb eb]; [|done].
  destruct (stop w "frontend" _ _ _) as [[[]|e] sf ef]; [|done].
  cbn [app]. done.
Qed.

Lemma cleanup_same_vars s : same_vars s (final (cleanup w s)).
Proof.
  rewrite cleanup_unfold. cbv zeta.
  pose proof (stop_same_vars w "backend" backend_process backend_log
                (λ _, eq_refl) (next_tick s)) as Hb.
  destruct (stop w "backend" _ _ _) as [[[]|e] sb eb]; cbn [res final] in *.
  - pose proof (stop_same_vars w "frontend" frontend_process frontend_log
                  (λ _, eq_refl) sb) as Hf.
    destruct (stop w "frontend" _ _ _) as [[[]|e] sf ef]; cbn [res final] in *.
    + eapply same_vars_trans; [|apply same_vars_next_tick].
      eapply same_vars_trans; [|exact Hf].
      eapply same_vars_trans; [|exact Hb]. apply same_vars_next_tick.
    + eapply same_vars_trans; [|exact Hf].
      eapply same_vars_trans; [|exact Hb]. apply same_vars_next_tick.
  - eapply same_vars_trans; [|exact Hb]. apply same_vars_next_tick.
Qed.

End Cleanup.

(** C2, as the code has it: [cleanup] stops the tracked processes in the
    order they were started, the backend before the frontend.  Whatever
    closing the backend's log does, and whether the backend exits within the
    5 second wait or has to be killed, the frontend is asked to terminate
    next. *)
Theorem cleanup_backend_then_frontend (w : world) (s : state) (b f : proc) :
  backend_process s = Some b →
  frontend_process s = Some f →
  (∀ t, proc_terminate w t b = Return tt) →
  (∀ t, match proc_wait w t b 5 with
        | Return _ => True
        | Raise e => is_TimeoutExpired e = true
        end) →
  (∀ t, proc_kill w t b = Return tt) →
  terminations (events (cleanup w s)) = [b; f].
Proof.
  intros Hb Hf Hterm Hwait Hkill. rewrite cleanup_unfold. cbv zeta.
  rewrite (stop_tracked w "backend" _ _ (next_tick s) b Hb).
  rewrite (halt_through w "backend" backend_log (λ _, eq_refl) _ b Hterm Hwait Hkill).
  pose proof (halt_same_vars w "backend" backend_log (λ _, eq_refl) (next_tick s) b)
    as (_ & Hf' & _).
  pose proof (halt_terminations w "backend" backend_log (λ _, eq_refl) (next_tick s) b)
    as Hb'.
  destruct (halt w "backend" b backend_log (next_tick s)) as [rb sb eb].
  cbn [res final events] in *.
  rewrite (stop_tracked w "frontend" _ _ sb f) by (by rewrite Hf').
  pose proof (halt_terminations w "frontend" frontend_log (λ _, eq_refl) sb f) as Hf''.
  destruct (halt w "frontend" f frontend_log sb) as [[[]|e] sf ef];
    cbn [res final events] in *;
    rewrite ?terminations_app, Hb', Hf''; reflexivity.
Qed.

(** C2 at work: the backend does not exit within five seconds and is
    killed; the frontend is stopped after it. *)
Lemma cleanup_backend_then_frontend_witness :
  terminations
    (events (cleanup (with_proc_wait
                        (λ _ p _, if p =? 100 then Raise (TimeoutExpired "timed out")
                                  else Return 0) quiet)
                     both_up))
  = [100; 200].
Proof.
  apply cleanup_backend_then_frontend; reflexivity.
Defined.

(** C2 as stated fails twice over: the backend is terminated first, not the
    frontend; and when terminating the backend raises, the frontend is
    never attempted. *)
Lemma cleanup_stops_backend_first :
  backend_process both_up = Some 100
  ∧ frontend_process both_up = Some 200
  ∧ terminations (events (cleanup quiet both_up)) = [100; 200]
  ∧ terminations (events (cleanup refused both_up)) = [100]
  ∧ res (cleanup refused both_up)
    = Raise (PyError "PermissionError" "Operation not permitted").
Proof. vm_compute. repeat split. Qed.

(** C6, as the code has it: [cleanup] never clears the process variables,
    so a second invocation calls [terminate] and [wait] again on every
    tracked process.  When those calls answer, as they do for a process that
    has exited, nothing is killed and the second invocation ends like the
    first, in [sys.exit(0)]. *)
Theorem cleanup_twice_repeats_the_calls (w : world) (s : state) (b f : proc) :
  let first := cleanup w s in
  let second := cleanup w (final first) in
  backend_process s = Some b →
  frontend_process s = Some f →
  (∀ t p, (tick (final first) ≤ t)%nat → p = b ∨ p = f →
          proc_terminate w t p = Return tt ∧ ∃ rc, proc_wait w t p 5 = Return rc) →
  backend_process (final first) = Some b
  ∧ frontend_process (final first) = Some f
  ∧ process_ops (events second) = [Terminate b; Wait b 5; Terminate f; Wait f 5]
  ∧ res second = Raise (SystemExit 0).
Proof.
  intros first second Hb Hf Hexited.
  destruct (cleanup_same_vars w s) as (Hb1 & Hf1 & _). fold first in Hb1, Hf1.
  rewrite Hb in Hb1. rewrite Hf in Hf1. split; [done|]. split; [done|].
  subst second. generalize dependent (final first). intros s1 Hexited Hb1 Hf1.
  rewrite cleanup_unfold. cbv zeta.
  rewrite (stop_tracked w "backend" _ _ (next_tick s1) b Hb1).
  destruct (halt_exited w "backend" backend_log (λ _, eq_refl) (next_tick s1) b)
    as [Hres Hops].
  { intros t Ht. apply Hexited; [cbn in Ht; lia|by left]. }
  { intros t Ht. apply Hexited; [cbn in Ht; lia|by left]. }
  pose proof (halt_same_vars w "backend" backend_log (λ _, eq_refl) (next_tick s1) b)
    as (_ & Hf' & _).
  pose proof (halt_tick w "backend" backend_log (λ _, eq_refl) (next_tick s1) b) as Htick.
  destruct (halt w "backend" b backend_log (next_tick s1)) as [rb sb eb].
  cbn [res final events tick next_tick] in *. subst rb.
  rewrite (stop_tracked w "frontend" _ _ sb f) by (by rewrite Hf').
  destruct (halt_exited w "frontend" frontend_log (λ _, eq_refl) sb f)
    as [Hres' Hops'].
  { intros t Ht. apply Hexited; [lia|by right]. }
  { intros t Ht. apply Hexited; [lia|by right]. }
  destruct (halt w "frontend" f frontend_log sb) as [rf sf ef].
  cbn [res final events] in *. subst rf. cbn [res events].
  split; [|done].
  change (Stdout ?a :: Stdout ?b :: ?l) with ([Stdout a; Stdout b] ++ l)%list.
  by rewrite !process_ops_app, Hops, Hops'.
Qed.

(** C6 at work: both processes exit on the first request. *)
Lemma cleanup_twice_repeats_the_calls_witness :
  process_ops (events (cleanup quiet (final (cleanup quiet both_up))))
  = [Terminate 100; Wait 100 5; Terminate 200; Wait 200 5]
  ∧ res (cleanup quiet (final (cleanup quiet both_up))) = Raise (SystemExit 0).
Proof.
  destruct (cleanup_twice_repeats_the_calls quiet both_up 100 200)
    as (_ & _ & Hops & Hres); try reflexivity.
  - intros t p _ _. split; [reflexivity|]. by exists 0.
  - by split.
Defined.

(** C6 as stated fails: after a first invocation has stopped both
    processes, the second one calls [terminate] on both again. *)
Lemma cleanup_twice_terminates_again :
  res (cleanup quiet both_up) = Raise (SystemExit 0)
  ∧ terminations (events (cleanup quiet (final (cleanup quiet both_up)))) = [100; 200].
Proof. vm_compute. by split. Qed.

(** C9: [cleanup] works on tracked services only.  Every [terminate],
    [wait] and [kill] is on a process held by one of the two variables, and
    every [close] is on the log of a service whose process variable is set;
    a service whose variable is [None] is passed over.  With neither service
    started it goes straight to [sys.exit(0)]; and whenever something else
    than that exit leaves [cleanup], a tracked process raised it. *)
Theorem cleanup_skips_untracked (w : world) (s : state) :
  let r := cleanup w s in
  (∀ e, e ∈ events r → on_tracked s e)
  ∧ (backend_process s = None → frontend_process s = None →
     res r = Raise (SystemExit 0) ∧ process_ops (events r) = [])
  ∧ (∀ e, res r = Raise e →
          e = SystemExit 0
          ∨ ∃ p, (backend_process s = Some p ∨ frontend_process s = Some p)
                 ∧ raised_on w p e).
Proof.
  cbv zeta. rewrite cleanup_unfold. cbv zeta.
  pose proof (stop_same_vars w "backend" backend_process backend_log
                (λ _, eq_refl) (next_tick s)) as Hvb.
  pose proof (stop_events w "backend" backend_process backend_log
                (λ _, eq_refl) (next_tick s)) as Heb.
  pose proof (stop_raise w "backend" backend_process backend_log
                (λ _, eq_refl) (next_tick s)) as Hrb.
  pose proof (stop_untracked w "backend" backend_process backend_log (next_tick s)) as Hnb.
  destruct (stop w "backend" _ _ (next_tick s)) as [rb sb eb].
  cbn [res final events] in *.
  pose proof (stop_same_vars w "frontend" frontend_process frontend_log
                (λ _, eq_refl) sb) as Hvf.
  pose proof (stop_events w "frontend" frontend_process frontend_log
                (λ _, eq_refl) sb) as Hef.
  pose proof (stop_raise w "frontend" frontend_process frontend_log
                (λ _, eq_refl) sb) as Hrf.
  pose proof (stop_untracked w "frontend" frontend_process frontend_log sb) as Hnf.
  destruct (stop w "frontend" _ _ sb) as [rf sf ef].
  cbn [res final events backend_process frontend_process backend_log frontend_log
       next_tick] in *.
  destruct Hvb as (Hb1 & Hf1 & Hbl1 & Hfl1).
  assert (Hin_b : ∀ e, e ∈ eb → on_tracked s e).
  { intros e Hin. specialize (Heb e Hin). destruct e; cbn in *; tauto. }
  assert (Hin_f : ∀ e, e ∈ ef → on_tracked s e).
  { intros e Hin. specialize (Hef e Hin). rewrite Hf1, Hfl1 in Hef.
    destruct e; cbn in *; tauto. }
  split; [|split].
  - intros e Hin.
    assert (Hcases : (∃ text, e = Stdout text) ∨ e ∈ eb ∨ e ∈ ef).
    { destruct rb as [[]|xb]; [destruct rf as [[]|xf]|]; cbn [events] in Hin;
        repeat (apply elem_of_app in Hin as [Hin|Hin]
                || apply elem_of_cons in Hin as [->|Hin]
                || apply elem_of_nil in Hin as []); eauto. }
    destruct Hcases as [[text ->]|[Hin'|Hin']]; [done|by apply Hin_b|by apply Hin_f].
  - intros Hb Hf. specialize (Hnb Hb). injection Hnb as -> -> ->.
    specialize (Hnf Hf). injection Hnf as -> -> ->. done.
  - intros e. destruct rb as [[]|xb]; [destruct rf as [[]|xf]|]; cbn [res].
    + intros [= <-]. by left.
    + intros [= <-]. right. destruct (Hrf xf eq_refl) as (p & Hp & Hraised).
      exists p. rewrite Hf1 in Hp. auto.
    + intros [= <-]. right. destruct (Hrb xb eq_refl) as (p & Hp & Hraised).
      exists p. auto.
Qed.

(** C9 at work: nothing started, and only the backend started. *)
Lemma cleanup_skips_untracked_witness :
  (res (cleanup quiet boot) = Raise (SystemExit 0)
   ∧ process_ops (events (cleanup quiet boot)) = [])
  ∧ (∀ e, e ∈ events (cleanup quiet backend_only) → on_tracked backend_only e).
Proof.
  split.
  - by apply cleanup_skips_untracked.
  - apply cleanup_skips_untracked.
Defined.

(** ** Invariants of a run *)

Section Sound.

Context (R : state → state → Prop) (Q : event → Prop).
Hypothesis R_refl : ∀ s, R s s.
Hypothesis R_trans : ∀ s1 s2 s3, R s1 s2 → R s2 s3 → R s1 s3.
Hypothesis R_tick : ∀ s, R s (next_tick s).

Lemma sound_ret {A} E (a : A) : sound R Q E (ret a).
Proof. intros s. by split. Qed.

Lemma sound_raise {A} (E : exn → Prop) (e : exn) : E e → sound R Q E (@raise A e).
Proof. intros He s. split; [done|]. split; [done|]. by intros x [= <-]. Qed.

Lemma sound_answer {A} (E : exn → Prop) (r : result A) :
  (∀ x, r = Raise x → E x) → sound R Q E (answer r).
Proof. intros He s. by split. Qed.

Lemma sound_get {A} E (field : state → A) : sound R Q E (get field).
Proof. intros s. by split. Qed.

Lemma sound_assign E update : (∀ s, R s (update s)) → sound R Q E (assign update).
Proof. intros Hu s. by split. Qed.

Lemma sound_emit E e : Q e → sound R Q E (emit e).
Proof. intros He s. split; [done|]. split; [|done]. by repeat constructor. Qed.

Lemma sound_ask {A} (E : exn → Prop) evs (ans : nat → result A) :
  Forall Q evs → (∀ t x, ans t = Raise x → E x) → sound R Q E (ask evs ans).
Proof. intros He Hx s. split; [done|]. split; [done|]. apply Hx. Qed.

Lemma sound_bind {A B} E (m : M A) (k : A → M B) :
  sound R Q E m → (∀ a, sound R Q E (k a)) → sound R Q E (bind m k).
Proof.
  intros Hm Hk s. unfold bind. destruct (Hm s) as (HR & HQ & HE).
  destruct (m s) as [[a|x] s1 e1]; cbn in *.
  - destruct (Hk a s1) as (HR' & HQ' & HE'). destruct (k a s1) as [r s2 e2]; cbn in *.
    split; [by eapply R_trans|]. split; [by apply Forall_app|done].
  - split; [done|]. split; [done|]. intros y [= <-]. by apply HE.
Qed.

Lemma sound_try_except {A} (E' E : exn → Prop) (body : M A) catches handler :
  sound R Q E' body →
  (∀ x, E' x → catches x = true → sound R Q E (handler x)) →
  (∀ x, E' x → catches x = false → E x) →
  sound R Q E (try_except body catches handler).
Proof.
  intros Hm Hk Hpass s. unfold try_except. destruct (Hm s) as (HR & HQ & HE).
  destruct (body s) as [[a|x] s1 e1]; cbn in *; [done|].
  specialize (HE x eq_refl).
  destruct (catches x) eqn:Hc.
  - destruct (Hk x HE Hc s1) as (HR' & HQ' & HE').
    destruct (handler x s1) as [r s2 e2]; cbn in *.
    split; [by eapply R_trans|]. split; [by apply Forall_app|done].
  - split; [done|]. split; [done|]. intros y [= <-]. by apply Hpass.
Qed.

Lemma sound_with_as {X A} E (acquire : M X) release (body : X → M A) :
  sound R Q E acquire → (∀ x, sound R Q E (release x)) → (∀ x, sound R Q E (body x)) →
  sound R Q E (with_as acquire release body).
Proof.
  intros Ha Hr Hb. unfold with_as. apply sound_bind; [done|]. intros x s.
  destruct (Hb x s) as (HR & HQ & HE). destruct (body x s) as [out s1 e1]; cbn in *.
  destruct (Hr x s1) as (HR' & HQ' & HE').
  destruct (release x s1) as [[u|e] s2 e2]; cbn in *;
    (split; [by eapply R_trans|]; split; [by apply Forall_app|]); [done|].
  intros y [= <-]. by apply HE'.
Qed.

Lemma sound_for_each {A B} E (xs : list A) (body : A → M (option B)) :
  (∀ x, sound R Q E (body x)) → sound R Q E (for_each xs body).
Proof.
  intros Hb. induction xs as [|x xs IH]; cbn [for_each]; [apply sound_ret|].
  apply sound_bind; [done|]. intros [v|]; [apply sound_ret|done].
Qed.

Lemma sound_for_in {A} E (xs : list A) (body : A → M unit) :
  (∀ x, sound R Q E (body x)) → sound R Q E (for_in xs body).
Proof.
  intros Hb. induction xs as [|x xs IH]; cbn [for_in]; [apply sound_ret|].
  by apply sound_bind.
Qed.

End Sound.

(** Take a computation apart down to the operations it performs. *)
Ltac head_of t :=
  lazymatch t with
  | ?f _ => head_of f
  | _ => t
  end.

Ltac relation_side :=
  first [ exact same_vars_refl | exact same_vars_trans | exact same_vars_next_tick
        | by unfold any_state ].

Ltac sound_step :=
  lazymatch goal with
  | |- sound _ _ _ (bind _ _) => apply sound_bind; [relation_side| |intros ?]
  | |- sound _ _ _ (ret _) => apply sound_ret; relation_side
  | |- sound _ _ _ (raise _) => apply sound_raise; [relation_side|try done]
  | |- sound _ _ _ (sys_exit _) => apply sound_raise; [relation_side|try done]
  | |- sound _ _ _ (answer _) => apply sound_answer; [relation_side|try done]
  | |- sound _ _ _ (get _) => apply sound_get; relation_side
  | |- sound _ _ _ (assign _) => apply sound_assign; by unfold any_state
  | |- sound _ _ _ (emit _) => apply sound_emit; [relation_side|try done]
  | |- sound _ _ _ (ask _ _) =>
      apply sound_ask;
      [relation_side
      |repeat (apply Forall_cons; split); try apply Forall_nil; try done
      |try done]
  | |- sound _ _ _ (try_except _ _ _) =>
      apply sound_try_except with (E' := any_exn);
      [relation_side| |intros ? _ _|try done]
  | |- sound _ _ _ (with_as _ _ _) =>
      apply sound_with_as; [relation_side| |intros ?|intros ?]
  | |- sound _ _ _ (for_each _ _) => apply sound_for_each; [relation_side..|intros ?]
  | |- sound _ _ _ (for_in _ _) => apply sound_for_in; [relation_side..|intros ?]
  | |- sound _ _ _ (match ?x with _ => _ end) => destruct x
  | |- sound _ _ _ ?m => let h := head_of m in unfold h
  end.

Ltac sound := repeat sound_step.

(** ** What each part of [start_all] leaves alone *)

(** ** Reading a run backwards *)

Section Inversion.

Context {A B : Type}.

Lemma bind_inv (m : M A) (k : A → M B) s b :
  res (bind m k s) = Return b →
  ∃ a, res (m s) = Return a
       ∧ res (k a (final (m s))) = Return b
       ∧ final (bind m k s) = final (k a (final (m s)))
       ∧ events (bind m k s) = (events (m s) ++ events (k a (final (m s))))%list.
Proof.
  unfold bind. destruct (m s) as [[a|x] s1 e1]; cbn; [|done].
  destruct (k a s1) as [r s2 e2] eqn:Hk; cbn. intros ->. exists a.
  by rewrite Hk.
Qed.

Lemma elem_of_bind (m : M A) (k : A → M B) s e :
  e ∈ events (bind m k s) →
  e ∈ events (m s) ∨ ∃ a, res (m s) = Return a ∧ e ∈ events (k a (final (m s))).
Proof.
  unfold bind. destruct (m s) as [[a|x] s1 e1]; cbn; [|by left].
  destruct (k a s1) as [r s2 e2] eqn:Hk; cbn. intros [Hin|Hin]%elem_of_app; [by left|].
  right. exists a. by rewrite Hk.
Qed.


End Inversion.

Lemma sound_final {A} R Q E (m : M A) s : sound R Q E m → R s (final (m s)).
Proof. intros H. apply H. Qed.

Lemma sound_events {A} R Q E (m : M A) s e : sound R Q E m → e ∈ events (m s) → Q e.
Proof. intros H Hin. destruct (H s) as (_ & HQ & _). by eapply Forall_forall in HQ. Qed.

Section Frames.

Context (w : world).

Context (Q : event → Prop).
Hypothesis Q_no_spawn : ∀ e, is_spawn e = false → Q e.

Lemma cleanup_sound : sound same_vars Q any_exn (cleanup w).
Proof. sound; by apply Q_no_spawn. Qed.

Lemma find_ports_sound : sound same_vars Q any_exn (find_ports w).
Proof. sound; by apply Q_no_spawn. Qed.

Lemma check_mongodb_sound : sound same_vars Q any_exn (check_mongodb w).
Proof. sound; by apply Q_no_spawn. Qed.

Lemma declare_and_trap_sound : sound any_state Q any_exn declare_and_trap.
Proof. sound; by apply Q_no_spawn. Qed.

Lemma choose_maven_sound : sound same_vars Q any_exn (choose_maven w).
Proof. sound; by apply Q_no_spawn. Qed.

Lemma compile_backend_sound maven_cmd : sound same_vars Q any_exn (compile_backend w maven_cmd).
Proof. sound; by apply Q_no_spawn. Qed.

Lemma poll_sound url running : sound same_vars Q any_exn (poll w url running).
Proof. sound; by apply Q_no_spawn. Qed.

Lemma await_backend_sound backend_port : sound same_vars Q any_exn (await_backend w backend_port).
Proof. sound; by apply Q_no_spawn. Qed.

Lemma install_frontend_sound : sound same_vars Q any_exn (install_frontend w).
Proof. sound; by apply Q_no_spawn. Qed.

Lemma await_frontend_sound frontend_port : sound same_vars Q any_exn (await_frontend w frontend_port).
Proof. sound; by apply Q_no_spawn. Qed.

Lemma summary_sound backend_port frontend_port :
  sound same_vars Q any_exn (summary w backend_port frontend_port).
Proof. sound; by apply Q_no_spawn. Qed.

Lemma idle_sound n : sound same_vars Q any_exn (idle w n).
Proof.
  induction n as [|n IH]; cbn [idle]; [apply cleanup_sound|].
  apply sound_bind; [exact same_vars_trans| |done]. sound. by apply Q_no_spawn.
Qed.

Lemma idle_loop_sound n :
  sound same_vars Q any_exn
        (try_except (idle w n) is_KeyboardInterrupt (λ _, cleanup w)).
Proof.
  apply sound_try_except with (E' := any_exn);
    [exact same_vars_trans|apply idle_sound|intros; apply cleanup_sound|done].
Qed.

End Frames.

(** ** The parts of [launch] *)

Section Phases.

Context (w : world).

Lemma exit_never_returns {A B} (m : M A) code s (b : B) :
  res (bind m (λ _, sys_exit code) s) ≠ Return b.
Proof. unfold bind, sys_exit, raise. by destruct (m s) as [[a|x] s1 e1]. Qed.

Lemma cleanup_never_returns s : res (cleanup w s) ≠ Return tt.
Proof.
  rewrite cleanup_unfold. cbv zeta.
  destruct (stop w "backend" _ _ _) as [[[]|xb] sb eb]; [|done].
  by destruct (stop w "frontend" _ _ _) as [[[]|xf] sf ef].
Qed.


(** Lines 477-485: the ports that leave [find_ports] are the two scans'
    results, and neither is [None] or 0. *)
Lemma find_ports_return s ports :
  res (find_ports w s) = Return ports →
  let scan := find_free_port w 8082 10 (next_tick s) in
  res scan = Return (fst ports)
  ∧ res (find_free_port w 3002 10 (final scan)) = Return (snd ports)
  ∧ falsy (fst ports) = false ∧ falsy (snd ports) = false.
Proof.
  unfold find_ports. intros H.
  apply bind_inv in H as ([] & _ & H & _). rewrite write_status_run in H. cbn [final] in H.
  apply bind_inv in H as (bp & Hbp & H & _).
  apply bind_inv in H as (fp & Hfp & H & _).
  apply bind_inv in H as ([] & Hb & H & _).
  apply bind_inv in H as ([] & Hf & H & _).
  apply bind_inv in H as ([] & _ & H & _).
  apply bind_inv in H as ([] & _ & H & _).
  injection H as <-. cbn [fst snd]. cbv zeta.
  split; [done|]. split; [done|]. split.
  - destruct (falsy bp); [|done]. by apply exit_never_returns in Hb.
  - destruct (falsy fp); [|done]. by apply exit_never_returns in Hf.
Qed.

Lemma declare_and_trap_run s :
  declare_and_trap s =
    Ran (Return tt) (State None None None None (tick s))
        [SignalHandler 2; SignalHandler 15].
Proof. reflexivity. Qed.

Ltac run_spawn :=
  cbv beta iota zeta delta
    [spawn_backend spawn_frontend bind try_except ask query assign raise sys_exit ret
     write_status print emit res final events app].

Ltac branch :=
  repeat match goal with
         | |- context [match ?x with _ => _ end] =>
             lazymatch x with
             | context [match _ with _ => _ end] => fail
             | _ => tryif is_var x then fail else destruct x eqn:?
             end
         end.

(** Lines 571-584: leaving the [try] block normally, the backend is
    tracked; the frontend's variable is not touched either way. *)
Lemma spawn_backend_return maven_cmd backend_port s :
  let r := spawn_backend w maven_cmd backend_port s in
  frontend_process (final r) = frontend_process s
  ∧ (res r = Return tt →
     is_Some (backend_process (final r)) ∧ is_Some (backend_log (final r))).
Proof. run_spawn. branch; cbn; split; try done; by eauto. Qed.


(** Lines 471-584: once [launch_backend] is through, the ports are those of
    [find_ports], the backend is tracked and the frontend is not. *)
Lemma launch_backend_return s ports :
  res (launch_backend w s) = Return ports →
  res (find_ports w s) = Return ports
  ∧ is_Some (backend_process (final (launch_backend w s)))
  ∧ frontend_process (final (launch_backend w s)) = None
  ∧ is_Some (backend_log (final (launch_backend w s))).
Proof.
  unfold launch_backend. intros H.
  apply bind_inv in H as ([] & _ & H & -> & _). cbn [print emit final] in *.
  apply bind_inv in H as ([] & _ & H & -> & _). cbn [print emit final] in *.
  apply bind_inv in H as ([] & _ & H & -> & _). cbn [print emit final] in *.
  apply bind_inv in H as (ports' & Hports & H & -> & _).
  apply bind_inv in H as ([] & _ & H & -> & _).
  apply bind_inv in H as ([] & _ & H & -> & _).
  rewrite declare_and_trap_run in *. cbn [final] in *.
  apply bind_inv in H as (maven_cmd & _ & H & -> & _).
  apply bind_inv in H as ([] & _ & H & -> & _).
  apply bind_inv in H as ([] & Hspawn & H & -> & _).
  injection H as <-. cbn [ret final].
  split; [done|].
  destruct (spawn_backend_return maven_cmd (fst ports')
              (final (compile_backend w maven_cmd
                        (final (choose_maven w
                                  (State None None None None
                                     (tick (final (check_mongodb w (final (find_ports w s)))))))))))
    as [Hfront Hback].
  destruct (Hback Hspawn) as [Hproc Hlog].
  split; [done|]. split; [|done]. rewrite Hfront.
  destruct (sound_final same_vars (λ _, True) any_exn (compile_backend w maven_cmd)
              (final (choose_maven w
                        (State None None None None
                           (tick (final (check_mongodb w (final (find_ports w s))))))))
              (compile_backend_sound w _ (λ _ _, I) maven_cmd)) as (_ & -> & _).
  by destruct (sound_final same_vars (λ _, True) any_exn (choose_maven w)
                 (State None None None None
                    (tick (final (check_mongodb w (final (find_ports w s))))))
                 (choose_maven_sound w _ (λ _ _, I))) as (_ & -> & _).
Qed.

End Phases.

(** ** A health check that runs out of attempts *)

Section Timeout.

Context (w : world).

Lemma poll_runs_out url running s :
  (∀ j, (j < 30)%nat → up w (tick s + j) url 2 = false) →
  res (poll w url running s) = Return false.
Proof.
  intros Hdown. rewrite poll_unfold. cbv zeta.
  pose proof (rounds_outcome w url running (py_range 0 30) s) as Hloop.
  cbv zeta in Hloop. destruct (for_each (py_range 0 30) _ s) as [r1 s1 e1].
  cbn [res final events] in *.
  destruct Hloop as [(k & Hk & Hok & _)|(_ & -> & _)]; [|done].
  rewrite Hdown in Hok by exact Hk. done.
Qed.


(** Lines 602-618: nothing leaves [show_log] when the file operations
    raise ordinary exceptions only. *)
Lemma show_log_never_raises path title :
  files_ordinary w → sound same_vars (λ _, True) no_exn (show_log w path title).
Proof.
  intros Hfiles. unfold show_log.
  apply sound_try_except with (E' := λ x, is_Exception x = true);
    [relation_side| |intros x _ _; sound|intros x Hx Hc; congruence].
  sound.
  - intros t x Hopen. destruct (Hfiles t) as (Ho & _ & _).
    specialize (Ho path "r"). by rewrite Hopen in Ho.
  - intros t y Hclose. destruct (Hfiles t) as (_ & _ & Hc).
    specialize (Hc x). by rewrite Hclose in Hc.
  - intros t y Hread. destruct (Hfiles t) as (_ & Hr & _).
    specialize (Hr x). by rewrite Hread in Hr.
Qed.





End Timeout.

(** ** The two health checks *)

Section Advisory.

Context (w : world) (s0 : state) (ports : option Z * option Z).


End Advisory.



(** ** The environment of the child processes *)

Section Children.

Context (w : world).

Lemma child_env_no_spawn ports e : is_spawn e = false → child_env w ports e.
Proof. by destruct e. Qed.

Lemma spawn_backend_sound maven_cmd ports :
  sound any_state (child_env w ports) any_exn (spawn_backend w maven_cmd (fst ports)).
Proof. sound. by left. Qed.

Lemma spawn_frontend_sound ports :
  sound any_state (child_env w ports) any_exn
        (spawn_frontend w (fst ports) (snd ports)).
Proof. sound. by right. Qed.

Tactic Notation "split_events" hyp(H) "as" ident(a) ident(Ha) :=
  apply elem_of_bind in H as [H|(a & Ha & H)].

Tactic Notation "split_events" hyp(H) :=
  let a := fresh "a" in
  let Ha := fresh "Ha" in
  apply elem_of_bind in H as [H|(a & Ha & H)].

Ltac no_spawn H lemma :=
  eapply sound_events in H; [|apply lemma; intros ? Hno; exact Hno]; done.

(** Every child that [start_all] starts gets the environment made for it
    from the ports [find_ports] came back with. *)
Lemma start_all_children s0 cmd cwd env log :
  Spawn cmd cwd env log ∈ events (start_all w s0) →
  ∃ ports, res (find_ports w s0) = Return ports
           ∧ child_env w ports (Spawn cmd cwd env log).
Proof.
  intros H. unfold start_all in H.
  split_events H; [|no_spawn H idle_loop_sound].
  unfold launch in H. split_events H; cycle 1.
  { split_events H; [no_spawn H await_frontend_sound|no_spawn H summary_sound]. }
  unfold launch_both in H. split_events H as ports Hback.
  - unfold launch_backend in H.
    do 3 (split_events H; [by apply list_elem_of_singleton in H|]).
    cbn [print emit final] in H.
    split_events H as ports Hports; [no_spawn H find_ports_sound|].
    exists ports. split; [done|].
    split_events H; [no_spawn H check_mongodb_sound|].
    split_events H; [no_spawn H declare_and_trap_sound|].
    split_events H as maven_cmd Hmaven; [no_spawn H choose_maven_sound|].
    split_events H; [no_spawn H compile_backend_sound|].
    split_events H; [|by apply elem_of_nil in H].
    eapply sound_events in H; [exact H|apply spawn_backend_sound].
  - apply launch_backend_return in Hback as (Hports & _).
    exists ports. split; [done|].
    split_events H; [no_spawn H await_backend_sound|].
    split_events H; [|by apply elem_of_nil in H].
    unfold launch_frontend in H.
    split_events H; [no_spawn H install_frontend_sound|].
    eapply sound_events in H; [exact H|apply spawn_frontend_sound].
Qed.

End Children.

(** C8: every child process that [start_all] spawns is given the inherited
    environment with only the override variables changed.  The backend (in
    directory backend) gets [SERVER_PORT] set to the backend port the scan
    from 8082 returned; the frontend (in directory frontend) gets [PORT] set
    to the port the scan from 3002 returned and [REACT_APP_API_URL] set to
    http://localhost:<backend port>/api.  Every other variable is as in
    [os.environ]. *)
Theorem children_inherit_environment (w : world) (s0 : state)
    (cmd cwd : string) (env : environment) (log : file) :
  Spawn cmd cwd env log ∈ events (start_all w s0) →
  ∃ backend_port frontend_port : Z,
    let scan := find_free_port w 8082 10 (next_tick s0) in
    res scan = Return (Some backend_port)
    ∧ res (find_free_port w 3002 10 (final scan)) = Return (Some frontend_port)
    ∧ ((cwd = "backend"
        ∧ env = <["SERVER_PORT" := pretty backend_port]> (environ w)
        ∧ env !! "SERVER_PORT" = Some (pretty backend_port)
        ∧ ∀ k, k ≠ "SERVER_PORT" → env !! k = environ w !! k)
       ∨ (cwd = "frontend"
          ∧ env !! "PORT" = Some (pretty frontend_port)
          ∧ env !! "REACT_APP_API_URL"
            = Some ("http://localhost:" +:+ pretty backend_port +:+ "/api")
          ∧ ∀ k, k ≠ "PORT" → k ≠ "REACT_APP_API_URL" → env !! k = environ w !! k)).
Proof.
  intros Hin. apply start_all_children in Hin as (ports & Hports & Henv).
  apply find_ports_return in Hports as (Hscan & Hscan' & Hb & Hf). cbv zeta in *.
  destruct ports as [[bp|] [fp|]]; try done. cbn [fst snd] in *.
  exists bp, fp. split; [done|]. split; [done|].
  destruct Henv as [[-> ->]|[-> ->]]; [left|right].
  - unfold backend_env. cbn [str_port]. split; [done|]. split; [done|].
    split; [apply lookup_insert_eq|]. intros k Hk. by apply lookup_insert_ne.
  - unfold frontend_env. cbn [str_port]. split; [done|].
    split; [by rewrite lookup_insert_ne, lookup_insert_eq|].
    split; [apply lookup_insert_eq|].
    intros k Hk Hk'. by rewrite !lookup_insert_ne.
Qed.

(** C8 at work: the backend's child in a world where 8082 is free. *)
Lemma children_inherit_environment_witness :
  ∃ port : Z,
    backend_env quiet (Some 8082) !! "SERVER_PORT" = Some (pretty port)
    ∧ backend_env quiet (Some 8082) !! "PATH" = environ quiet !! "PATH".
Proof.
  destruct (children_inherit_environment quiet boot "mvn spring-boot:run" "backend"
              (backend_env quiet (Some 8082)) 13)
    as (bp & fp & _ & _ & [(_ & _ & Hport & Hrest)|(Hcwd & _)]).
  - apply (list_elem_of_lookup_2 _ 18%nat). vm_compute. reflexivity.
  - exists bp. split; [exact Hport|]. by apply Hrest.
  - discriminate Hcwd.
Defined.

(** ** The exit status after a backend that never answers *)

Section BackendTimeout.

Context (w : world) (s0 : state) (ports : option Z * option Z) (b : proc).

(** Whenever [start_all] has started the backend, the 30 attempts fail, the
    log can be closed and read back, and the backend can be stopped, the
    exception that ends the run is the [SystemExit(0)] of [cleanup]. *)
Lemma backend_timeout_leaves_by_exit_0 :
  let s1 := final (launch_backend w s0) in
  res (launch_backend w s0) = Return ports →
  (∀ j, (j < 30)%nat → up w (S (tick s1) + j) (backend_url (fst ports)) 2 = false) →
  backend_process s1 = Some b →
  (∀ t f, backend_log s1 = Some f → file_close w t f = Return tt) →
  files_ordinary w →
  (∀ t, proc_terminate w t b = Return tt) →
  (∀ t, match proc_wait w t b 5 with
        | Return _ => True
        | Raise e => is_TimeoutExpired e = true
        end) →
  (∀ t, proc_kill w t b = Return tt) →
  res (start_all w s0) = Raise (SystemExit 0).
Proof.
  intros s1 Hreach Hdown Hb Hclose Hfiles Hterm Hwait Hkill.
  destruct (launch_backend_return w s0 ports Hreach) as (_ & _ & Hnone & [f Hlog]).
  fold s1 in Hnone, Hlog.
  unfold start_all, launch, launch_both. rewrite !bind_res, Hreach. fold s1.
  rewrite bind_res.
  assert (res (await_backend w (fst ports) s1) = Raise (SystemExit 0)) as ->; [|done].
  unfold await_backend.
  rewrite bind_res, write_status_run. cbn [res final].
  rewrite bind_res, (poll_runs_out w _ _ (next_tick s1) Hdown). cbn [negb].
  destruct (sound_final same_vars (λ _, True) any_exn _ (next_tick s1)
              (poll_sound w _ (λ _ _, I) (backend_url (fst ports))
                 ("Backend is running on http://localhost:" +:+ str_port (fst ports))))
    as (Hb2 & Hf2 & Hl2 & _).
  cbn [backend_process frontend_process backend_log next_tick] in Hb2, Hf2, Hl2.
  set (s2 := final (poll w _ _ (next_tick s1))) in *.
  rewrite bind_res. cbn [print emit res final].
  rewrite bind_res, write_status_run. cbn [res final].
  rewrite bind_res, write_status_run. cbn [res final].
  rewrite bind_res, bind_get. cbn [backend_log next_tick]. rewrite Hl2, Hlog.
  cbn [close_log ask res final]. rewrite (Hclose _ f Hlog).
  rewrite bind_res.
  pose proof (show_log_never_raises w backend_log_file
                "Backend Startup Logs (last 100 lines):" Hfiles
                (next_tick (next_tick (next_tick s2)))) as (Hvars & _ & Hnever).
  destruct Hvars as (Hb3 & Hf3 & _).
  cbn [backend_process frontend_process next_tick] in Hb3, Hf3.
  destruct (res (show_log w _ _ _)) as [[]|x]; [|by destruct (Hnever x)].
  set (s3 := final (show_log w _ _ _)) in *.
  rewrite cleanup_unfold. cbv zeta.
  rewrite (stop_tracked w "backend" _ _ (next_tick s3) b)
    by (cbn; by rewrite Hb3, Hb2).
  rewrite (halt_through w "backend" backend_log (λ _, eq_refl) _ b Hterm Hwait Hkill).
  pose proof (halt_same_vars w "backend" backend_log (λ _, eq_refl) (next_tick s3) b)
    as (_ & Hf4 & _).
  cbn [frontend_process next_tick] in Hf4.
  rewrite (stop_untracked w "frontend" _ _ _) by (by rewrite Hf4, Hf3, Hf2).
  done.
Qed.

End BackendTimeout.

(** C1 at the failing input: in a world where the backend never answers,
    [start_all] makes its 30 attempts, prints the tail of the backend's log,
    terminates the backend (the only process started) and leaves through
    the [sys.exit(0)] that ends [cleanup]: the exit status is 0.  A build
    that fails, which is reported as an error in the same way, exits with
    status 1. *)
Theorem backend_timeout_exits_zero :
  let r := start_all never_up boot in
  attempts (events r) = 30%nat
  ∧ take 2 (drop 120 (events r)) = printed (last_n 100 ["Tomcat started"; "Port in use"])
  ∧ terminations (events r) = [1014]
  ∧ backend_process (final r) = Some 1014
  ∧ frontend_process (final r) = None
  ∧ res r = Raise (SystemExit 0)
  ∧ exit_status (res r) = 0
  ∧ exit_status (res (start_all broken_build boot)) = 1.
Proof. vm_compute. repeat split. Qed.

(** * More of the script *)

(** ** The health-poll loop, whatever the service does *)

(** X1: whatever the service answers, the loop of lines 588-594 makes at
    most 30 requests and asks for at most 60 seconds of sleep, two seconds
    for a request at most.  When the loop runs to its end and answers, it
    has made at least one request, has slept two seconds after each request
    that failed and not after the one that succeeded, and it answers false
    only after 30 requests. *)
Theorem poll_is_bounded (w : world) (url running : string) (s : state) :
  let r := poll w url running s in
  (attempts (events r) ≤ 30)%nat
  ∧ 0 ≤ slept (events r) ≤ 60
  ∧ slept (events r) ≤ 2 * Z.of_nat (attempts (events r))
  ∧ ∀ started : bool,
      res r = Return started →
      (1 ≤ attempts (events r))%nat
      ∧ slept (events r)
        = 2 * (Z.of_nat (attempts (events r)) - (if started then 1 else 0))
      ∧ (started = false → attempts (events r) = 30%nat).
Proof.
  cbv zeta. rewrite poll_unfold. cbv zeta.
  pose proof (rounds_outcome w url running (py_range 0 30) s) as Hloop.
  cbv zeta in Hloop.
  destruct (for_each (py_range 0 30) _ s) as [r1 s1 e1].
  cbn [res final events] in *.
  replace (length (py_range 0 30)) with 30%nat in Hloop by reflexivity.
  destruct Hloop as [(k & Hk & _ & _ & -> & Hn & Hz)|(_ & -> & Hn & Hz)];
    rewrite Hn, Hz; (split; [lia|]); (split; [lia|]); (split; [lia|]);
    intros started [= <-]; cbn; (split; [lia|]); (split; [lia|]); done.
Qed.

(** X1 at work: the service answers the third request. *)
Lemma poll_is_bounded_witness :
  let r := poll third_time "http://localhost:8082/api/posts" "Backend is running" boot in
  attempts (events r) = 3%nat ∧ slept (events r) = 4.
Proof.
  cbv zeta.
  destruct (poll_is_bounded third_time "http://localhost:8082/api/posts"
              "Backend is running" boot) as (_ & _ & _ & Hend).
  destruct (Hend true) as (_ & Hslept & _); [reflexivity|].
  split; [reflexivity|]. rewrite Hslept. reflexivity.
Defined.

(** ** Escalation from [terminate] to [kill] *)

Section Escalation.

Context (w : world).

Ltac run_halt :=
  cbv beta iota zeta delta
    [halt bind try_except get close_log terminate wait kill ask raise ret
     write_status query print emit anything res final events app].

Ltac branch :=
  repeat match goal with
         | |- context [match ?x with _ => _ end] =>
             lazymatch x with
             | context [match _ with _ => _ end] => fail
             | _ => tryif is_var x then fail else destruct x eqn:?
             end
         end.

Ltac members H :=
  repeat (apply elem_of_cons in H as [H|H]; [try discriminate H|]);
  try (by apply elem_of_nil in H).

(** Lines 517-521: [kill] is reached only through the [except] clause of
    the timed-out [wait]. *)
Lemma halt_kill name p log s q :
  Kill q ∈ events (halt w name p log s) →
  q = p ∧ ∃ t msg, proc_terminate w t p = Return tt
                   ∧ proc_wait w (S t) p 5 = Raise (TimeoutExpired msg).
Proof.
  run_halt. branch; intros Hin; members Hin;
    injection Hin as ->; (split; [done|]);
    match goal with
    | Ht : proc_terminate w ?t p = Return _, Hw : proc_wait w _ p 5 = Raise ?x |- _ =>
        destruct x; try discriminate; exists t; eexists; split;
        [by destruct (proc_terminate w t p) as [[]|]|exact Hw]
    end.
Qed.

(** The other way round: a process that lets [terminate] through and does
    not exit in time is killed. *)
Lemma halt_escalates name p log s :
  (∀ t, proc_terminate w t p = Return tt) →
  (∀ t, ∃ msg, proc_wait w t p 5 = Raise (TimeoutExpired msg)) →
  Kill p ∈ events (halt w name p log s).
Proof.
  intros Hterm Hwait. run_halt.
  destruct (log _) as [f|]; [destruct (file_close w _ f)|];
    rewrite Hterm;
    match goal with |- context [proc_wait w ?t p 5] =>
      destruct (Hwait t) as [msg Hmsg]; rewrite Hmsg end;
    cbn [is_TimeoutExpired];
    repeat first [apply list_elem_of_here | apply list_elem_of_further].
Qed.

End Escalation.

(** X2: [cleanup] kills a process only after asking it to terminate and
    waiting five seconds in vain: every [kill] is on a tracked process
    whose [terminate] returned and whose [wait(timeout=5)] raised
    [TimeoutExpired].  And a tracked backend that accepts [terminate] but
    never exits in time does get killed. *)
Theorem kill_only_after_timeout (w : world) (s : state) :
  (∀ p, Kill p ∈ events (cleanup w s) →
        (backend_process s = Some p ∨ frontend_process s = Some p)
        ∧ ∃ t msg, proc_terminate w t p = Return tt
                   ∧ proc_wait w (S t) p 5 = Raise (TimeoutExpired msg))
  ∧ (∀ b, backend_process s = Some b →
          (∀ t, proc_terminate w t b = Return tt) →
          (∀ t, ∃ msg, proc_wait w t b 5 = Raise (TimeoutExpired msg)) →
          Kill b ∈ events (cleanup w s)).
Proof.
  split.
  - intros p Hin. rewrite cleanup_unfold in Hin. cbv zeta in Hin.
    pose proof (stop_same_vars w "backend" backend_process backend_log
                  (λ _, eq_refl) (next_tick s)) as (_ & Hf & _).
    cbn [frontend_process next_tick] in Hf.
    assert (Hcases : Kill p ∈ events (stop w "backend" backend_process backend_log
                                        (next_tick s))
                     ∨ Kill p ∈ events (stop w "frontend" frontend_process frontend_log
                                          (final (stop w "backend" backend_process
                                                    backend_log (next_tick s))))).
    { destruct (res (stop w "backend" _ _ _)) as [[]|xb];
        [destruct (res (stop w "frontend" _ _ _)) as [[]|xf]|];
        cbn [events] in Hin;
        repeat (apply elem_of_app in Hin as [Hin|Hin]
                || apply elem_of_cons in Hin as [Hin|Hin]
                || apply elem_of_nil in Hin as []); try discriminate Hin; auto. }
    destruct Hcases as [Hin'|Hin'].
    + destruct (backend_process s) as [b|] eqn:Hb.
      * rewrite (stop_tracked w "backend" _ _ (next_tick s) b Hb) in Hin'.
        apply halt_kill in Hin' as [-> Hwhy]. auto.
      * rewrite (stop_untracked w "backend" _ _ (next_tick s) Hb) in Hin'.
        by apply elem_of_nil in Hin'.
    + destruct (frontend_process s) as [f|] eqn:Hfp.
      * rewrite (stop_tracked w "frontend" _ _ _ f Hf) in Hin'.
        apply halt_kill in Hin' as [-> Hwhy]. auto.
      * rewrite (stop_untracked w "frontend" _ _ _ Hf) in Hin'.
        by apply elem_of_nil in Hin'.
  - intros b Hb Hterm Hwait. rewrite cleanup_unfold. cbv zeta.
    rewrite (stop_tracked w "backend" _ _ (next_tick s) b Hb).
    pose proof (halt_escalates w "backend" b backend_log (next_tick s) Hterm Hwait) as Hk.
    destruct (res (halt w "backend" b backend_log (next_tick s))) as [[]|xb];
      [destruct (res (stop w "frontend" _ _ _)) as [[]|xf]|];
      cbn [events]; set_solver.
Qed.

(** X2 at work: both children ignore the termination request. *)
Lemma kill_only_after_timeout_witness :
  Kill 100 ∈ events (cleanup stuck both_up)
  ∧ ∃ t msg, proc_wait stuck (S t) 200 5 = Raise (TimeoutExpired msg).
Proof.
  destruct (kill_only_after_timeout stuck both_up) as [Honly Hback].
  split.
  - apply Hback; [reflexivity|reflexivity|]. intros t. by eexists.
  - destruct (Honly 200) as (_ & t & msg & _ & Hwait).
    + apply (list_elem_of_lookup_2 _ 11%nat). reflexivity.
    + by exists t, msg.
Defined.

(** ** The checks before anything is started *)

Lemma bind_raises {A B} (m : M A) (k : A → M B) s x :
  res (m s) = Raise x → bind m k s = Ran (Raise x) (final (m s)) (events (m s)).
Proof.
  unfold bind. destruct (m s) as [[a|x'] s1 e1]; cbn; [done|]. by intros [= ->].
Qed.

Lemma bind_write_status {B} w message msg_type (k : unit → M B) s :
  bind (write_status w message msg_type) k s =
    let r := k tt (next_tick s) in
    Ran (res r) (final r)
        (Stdout (status_text (now_hms w (tick s)) message msg_type +:+ nl) :: events r).
Proof. unfold bind. rewrite write_status_run. by destruct (k tt (next_tick s)). Qed.

Lemma bind_print {B} text (k : unit → M B) s :
  bind (print text) k s =
    let r := k tt s in Ran (res r) (final r) (Stdout (text +:+ nl) :: events r).
Proof. unfold bind, print, emit. by destruct (k tt s). Qed.

Lemma bind_test_port {B} w port (k : bool → M B) s :
  0 ≤ port ≤ 65535 →
  bind (test_port w port) k s =
    let r := k (busy w (tick s) port) (next_tick s) in
    Ran (res r) (final r) (Connect port :: events r).
Proof.
  intros Hport. unfold bind. rewrite test_port_run by done.
  by destruct (k (busy w (tick s) port) (next_tick s)).
Qed.

Section Checks.

Context (w : world).

Lemma find_ports_probes_only : sound same_vars print_or_probe any_exn (find_ports w).
Proof. sound; done. Qed.

Lemma scan_all_busy start (n : nat) s :
  0 ≤ start → start + Z.of_nat n ≤ 65536 →
  (∀ t port, start ≤ port < start + Z.of_nat n → busy w t port = true) →
  res (find_free_port w start (Z.of_nat n) s) = Return None.
Proof.
  intros Hlow Hhigh Hbusy.
  destruct (scan_outcome w n start s Hlow Hhigh)
    as [(i & Hi & _ & Hfree & _)|(Hres & _)]; [|done].
  rewrite Hbusy in Hfree by lia. done.
Qed.

Lemma find_free_port_returns start (n : nat) s :
  0 ≤ start → start + Z.of_nat n ≤ 65536 →
  ∃ v, res (find_free_port w start (Z.of_nat n) s) = Return v.
Proof.
  intros Hlow Hhigh.
  destruct (scan_outcome w n start s Hlow Hhigh) as [(i & _ & Hres & _)|(Hres & _)];
    eauto.
Qed.

(** Lines 477-485 with one of the two ranges full. *)
Lemma find_ports_exhausted s :
  (∀ t port, 8082 ≤ port ≤ 8091 → busy w t port = true)
  ∨ (∀ t port, 3002 ≤ port ≤ 3011 → busy w t port = true) →
  res (find_ports w s) = Raise (SystemExit 1).
Proof.
  intros Hfull. unfold find_ports.
  rewrite bind_res, write_status_run. cbn [res final].
  rewrite bind_res.
  destruct (find_free_port_returns 8082 10 (next_tick s)) as [bp Hbp]; [lia..|].
  change (Z.of_nat 10) with 10 in Hbp. rewrite Hbp.
  rewrite bind_res.
  destruct (find_free_port_returns 3002 10 (final (find_free_port w 8082 10 (next_tick s))))
    as [fp Hfp]; [lia..|].
  change (Z.of_nat 10) with 10 in Hfp. rewrite Hfp. rewrite bind_res.
  destruct (falsy bp) eqn:Hfb.
  { by rewrite bind_res, write_status_run. }
  cbn [ret res final]. rewrite bind_res.
  destruct (falsy fp) eqn:Hff.
  { by rewrite bind_res, write_status_run. }
  exfalso. destruct Hfull as [Hfull|Hfull].
  - pose proof (scan_all_busy 8082 10 (next_tick s) ltac:(lia) ltac:(lia)) as Hnone.
    change (Z.of_nat 10) with 10 in Hnone.
    rewrite Hnone in Hbp by (intros; apply Hfull; lia). by injection Hbp as <-.
  - pose proof (scan_all_busy 3002 10
                  (final (find_free_port w 8082 10 (next_tick s)))
                  ltac:(lia) ltac:(lia)) as Hnone.
    change (Z.of_nat 10) with 10 in Hnone.
    rewrite Hnone in Hfp by (intros; apply Hfull; lia). by injection Hfp as <-.
Qed.

End Checks.

(** X3: when every port of 8082-8091, or every port of 3002-3011, has a
    listener, [start_all] ends in [sys.exit(1)] having done nothing but
    print and probe ports: no handler is installed, nothing is compiled and
    no child is started. *)
Theorem port_exhaustion_is_fatal (w : world) (s : state) :
  (∀ t port, 8082 ≤ port ≤ 8091 → busy w t port = true)
  ∨ (∀ t port, 3002 ≤ port ≤ 3011 → busy w t port = true) →
  res (start_all w s) = Raise (SystemExit 1)
  ∧ exit_status (res (start_all w s)) = 1
  ∧ Forall print_or_probe (events (start_all w s)).
Proof.
  intros Hfull.
  pose proof (find_ports_exhausted w s Hfull) as Hports.
  pose proof (find_ports_probes_only w s) as (_ & Hevents & _).
  assert (Hrun : start_all w s
                 = Ran (Raise (SystemExit 1)) (final (find_ports w s))
                       (Stdout ((Colors.BLUE +:+ "Starting Medium Blog Platform (All Services)..."
                                 +:+ Colors.ENDC) +:+ nl)
                        :: Stdout ((Colors.BLUE +:+ "==============================================="
                                    +:+ Colors.ENDC) +:+ nl)
                        :: Stdout ("" +:+ nl) :: events (find_ports w s))).
  { assert (Hback : launch_backend w s = Ran (Raise (SystemExit 1)) (final (find_ports w s))
                       (Stdout ((Colors.BLUE +:+ "Starting Medium Blog Platform (All Services)..."
                                 +:+ Colors.ENDC) +:+ nl)
                        :: Stdout ((Colors.BLUE +:+ "==============================================="
                                    +:+ Colors.ENDC) +:+ nl)
                        :: Stdout ("" +:+ nl) :: events (find_ports w s))).
    { unfold launch_backend. rewrite !bind_print. cbv zeta.
      by rewrite (bind_raises _ _ _ _ Hports). }
    unfold start_all, launch, launch_both.
    rewrite (bind_raises (bind (bind _ _) _) _ s (SystemExit 1));
      rewrite (bind_raises (bind _ _) _ s (SystemExit 1));
      rewrite ?(bind_raises (launch_backend w) _ s (SystemExit 1)); by rewrite Hback. }
  rewrite Hrun. cbn [res final events exit_status].
  split; [done|]. split; [done|]. by repeat constructor.
Qed.

(** X3 at work: every port tried has a listener. *)
Lemma port_exhaustion_is_fatal_witness :
  exit_status (res (start_all crowded boot)) = 1.
Proof.
  apply (port_exhaustion_is_fatal crowded boot). left. intros t port _. reflexivity.
Defined.

(** X4: the MongoDB check (lines 490-499) is advisory.  With a listener on
    27017 it goes on without asking; without one it reports the fact, asks
    for Enter and goes on when [input] returns.  It never exits on its own:
    an exception leaves it only when [input] raised that exception. *)
Theorem mongodb_check_is_advisory (w : world) (s : state) :
  let r := check_mongodb w s in
  let prompt := "Press Enter to continue anyway, or Ctrl+C to cancel..." in
  (busy w (S (tick s)) 27017 = true →
   res r = Return tt ∧ Input prompt ∉ events r)
  ∧ (busy w (S (tick s)) 27017 = false →
     Input prompt ∈ events r
     ∧ match input_line w (3 + tick s) prompt with
       | Return _ => res r = Return tt
       | Raise e => res r = Raise e
       end)
  ∧ same_vars s (final r).
Proof.
  cbv zeta. unfold check_mongodb.
  rewrite bind_write_status. cbv zeta. rewrite bind_test_port by lia. cbv zeta.
  cbn [res final events tick next_tick].
  destruct (busy w (S (tick s)) 27017) eqn:Hb.
  - rewrite write_status_run. cbn [res final events app].
    split; [|split; [done|by repeat split]]. intros _. split; [done|].
    intros Hin. repeat (apply elem_of_cons in Hin as [Hin|Hin]; [discriminate Hin|]).
    by apply elem_of_nil in Hin.
  - rewrite bind_write_status. cbv zeta. rewrite !bind_print. cbv zeta.
    unfold bind, ask, ret. cbn [res final events tick next_tick app].
    split; [done|].
    change (3 + tick s)%nat with (S (S (S (tick s)))).
    destruct (input_line w (S (S (S (tick s)))) _) as [line|e];
      cbn [res final events app].
    + split; [|by repeat split]. intros _. split; [|done].
      do 6 apply list_elem_of_further. apply list_elem_of_here.
    + split; [|by repeat split]. intros _. split; [|done].
      do 6 apply list_elem_of_further. apply list_elem_of_here.
Qed.

(** X4 at work: MongoDB is down and nobody is there to press Enter. *)
Lemma mongodb_check_is_advisory_witness :
  res (check_mongodb no_mongodb boot) = Raise (PyError "EOFError" "EOF when reading a line")
  ∧ res (check_mongodb quiet boot) = Return tt.
Proof.
  split.
  - destruct (mongodb_check_is_advisory no_mongodb boot) as (_ & Hdown & _).
    destruct Hdown as [_ Hres]; [reflexivity|exact Hres].
  - destruct (mongodb_check_is_advisory quiet boot) as (Hup & _).
    destruct Hup as [Hres _]; [reflexivity|exact Hres].
Defined.

(** ** How [start_all] ends *)

Section Ending.

Context (w : world).

Lemma idle_never_returns n s : res (idle w n s) ≠ Return tt.
Proof.
  revert s. induction n as [|n IH]; intros s; cbn [idle].
  - apply cleanup_never_returns.
  - apply bind_never_returns. intros _ s'. apply IH.
Qed.

Lemma idle_loop_never_returns n s :
  res (try_except (idle w n) is_KeyboardInterrupt (λ _, cleanup w) s) ≠ Return tt.
Proof.
  unfold try_except. pose proof (idle_never_returns n s) as Hidle.
  destruct (idle w n s) as [[[]|x] s1 e1]; [done|].
  destruct (is_KeyboardInterrupt x); [|done].
  pose proof (cleanup_never_returns w s1) as Hclean.
  by destruct (cleanup w s1) as [[[]|y] s2 e2].
Qed.

End Ending.

(** X5: [start_all] never returns to its caller.  The loop of lines
    709-711 has no exit of its own, and both ways out of it, the signal
    handler and the [except KeyboardInterrupt] clause, are [cleanup], which
    ends in [sys.exit]: every run ends in an exception. *)
Theorem start_all_never_returns (w : world) (s : state) :
  ∃ x, res (start_all w s) = Raise x.
Proof.
  unfold start_all.
  pose proof (bind_never_returns (launch w)
                (λ _, try_except (idle w (signal_after w)) is_KeyboardInterrupt
                        (λ _, cleanup w)) s tt
                (λ _ s', idle_loop_never_returns w (signal_after w) s')) as Hnever.
  destruct (res (bind (launch w) _ s)) as [[]|x]; [done|by exists x].
Qed.

(** ** [start_backend] and [start_frontend] *)

Section Services.

Context (w : world).

Ltac branch :=
  repeat match goal with
         | |- context [match ?x with _ => _ end] =>
             lazymatch x with
             | context [match _ with _ => _ end] => fail
             | _ => tryif is_var x then fail else destruct x eqn:?
             end
         end.

Ltac members H :=
  repeat (apply elem_of_cons in H as [H|H]; [try discriminate H|]);
  try (by apply elem_of_nil in H).

Lemma run_command_success cmd cwd shell s out err :
  res (run_command w cmd cwd shell false s) = Return (true, out, err) →
  ∃ c, subprocess_run w (tick s) (argv cmd shell) cwd shell true = Return c
       ∧ returncode c = 0.
Proof.
  cbv beta iota zeta delta [run_command try_except bind ask ret res final events].
  destruct (subprocess_run w (tick s) (argv cmd shell) cwd shell true) as [c|x].
  - cbn. intros [= Hc _ _]. exists c. split; [done|]. by apply Z.eqb_eq.
  - cbn. by destruct (is_Exception x).
Qed.

Lemma scan_in_range start (n : nat) s p :
  0 ≤ start → start + Z.of_nat n ≤ 65536 →
  res (find_free_port w start (Z.of_nat n) s) = Return (Some p) →
  start ≤ p < start + Z.of_nat n ∧ ∃ t, busy w t p = false.
Proof.
  intros Hlow Hhigh Hres.
  destruct (scan_outcome w n start s Hlow Hhigh)
    as [(i & Hi & Hres' & Hfree & _)|(Hres' & _)];
    rewrite Hres' in Hres; [|done].
  injection Hres as <-. split; [lia|by eauto].
Qed.

Lemma prepare_backend_sound Q :
  (∀ e, is_spawn e = false → Q e) → sound same_vars Q any_exn (prepare_backend w).
Proof. intros HQ. sound; by apply HQ. Qed.

Lemma prepare_frontend_sound Q :
  (∀ e, is_spawn e = false → Q e) → sound same_vars Q any_exn (prepare_frontend w).
Proof. intros HQ. sound; by apply HQ. Qed.

Lemma serve_backend_run maven_cmd backend_port s :
  let cmd := maven_cmd +:+ " spring-boot:run" in
  let r := serve_backend w maven_cmd backend_port s in
  res r = after_child (subprocess_run w (tick s) (CmdStr cmd) (Some backend_dir) true false)
  ∧ ∃ rest, events r = Spawn cmd backend_dir (backend_env w backend_port) 1 :: rest
            ∧ Forall (λ e, is_spawn e = false) rest.
Proof.
  cbv beta iota zeta delta
    [serve_backend run_child try_except bind ask ret raise sys_exit write_status query
     print emit after_child interrupt_or_error res final events app].
  destruct (subprocess_run w (tick s) _ _ true false) as [c|x]; cbn [res final events].
  - split; [done|]. by eexists.
  - destruct (is_KeyboardInterrupt x); cbn [orb res final events app];
      [|destruct (is_Exception x); cbn [res final events app]];
      (split; [done|]); eexists; (split; [done|]); by repeat constructor.
Qed.

Lemma serve_frontend_run backend_port frontend_port s :
  let r := serve_frontend w backend_port frontend_port s in
  res r = after_child (subprocess_run w (tick s) (CmdStr "npm start") (Some frontend_dir)
                         true false)
  ∧ ∃ rest, events r = Spawn "npm start" frontend_dir
                         (frontend_env w backend_port frontend_port) 1 :: rest
            ∧ Forall (λ e, is_spawn e = false) rest.
Proof.
  cbv beta iota zeta delta
    [serve_frontend run_child try_except bind ask ret raise sys_exit write_status query
     print emit after_child interrupt_or_error res final events app].
  destruct (subprocess_run w (tick s) _ _ true false) as [c|x]; cbn [res final events].
  - split; [done|]. by eexists.
  - destruct (is_KeyboardInterrupt x); cbn [orb res final events app];
      [|destruct (is_Exception x); cbn [res final events app]];
      (split; [done|]); eexists; (split; [done|]); by repeat constructor.
Qed.

(** A child among the operations of [prepare >>= serve] is the one of
    [serve], started after [prepare] came back. *)
Lemma only_child {A} (prepare : M A) (serve : A → M unit) (spawned : A → event) s e :
  sound same_vars (λ e, is_spawn e = false) any_exn prepare →
  (∀ a s', ∃ rest, events (serve a s') = spawned a :: rest
                   ∧ Forall (λ e, is_spawn e = false) rest) →
  e ∈ events (bind prepare serve s) → is_spawn e = true →
  ∃ a, res (prepare s) = Return a ∧ e = spawned a.
Proof.
  intros Hprepare Hserve Hin He.
  apply elem_of_bind in Hin as [Hin|(a & Ha & Hin)].
  - eapply sound_events in Hin; [|exact Hprepare]. cbv beta in Hin. congruence.
  - exists a. split; [done|].
    destruct (Hserve a (final (prepare s))) as (rest & Hev & Hrest).
    rewrite Hev in Hin. apply elem_of_cons in Hin as [Hin|Hin]; [done|].
    eapply Forall_forall in Hrest; [|exact Hin]. cbv beta in Hrest. congruence.
Qed.

Lemma scan_10 start s p :
  0 ≤ start ≤ 65526 →
  res (find_free_port w start 10 s) = Return p → falsy p = false →
  ∃ port, p = Some port ∧ start ≤ port ≤ start + 9 ∧ ∃ t, busy w t port = false.
Proof.
  intros Hstart Hres Hp. destruct p as [port|]; [|done]. exists port. split; [done|].
  change 10 with (Z.of_nat 10) in Hres.
  apply scan_in_range in Hres as [Hrange Hfree]; [|lia..].
  split; [lia|done].
Qed.

Lemma exit_unless_returns {A} (c : bool) (m : M A) code s :
  res ((if c then m >> sys_exit code else ret tt) s) = Return tt → c = false.
Proof. destruct c; [|done]. intros H. by apply exit_never_returns in H. Qed.

(** Lines 336-392: what has happened when [start_backend] gets as far as
    its child. *)
Lemma prepare_backend_return s maven_cmd backend_port :
  res (prepare_backend w s) = Return (maven_cmd, backend_port) →
  (∃ port, backend_port = Some port ∧ 8082 ≤ port ≤ 8091 ∧ ∃ t, busy w t port = false)
  ∧ (∃ t, path_exists w t backend_dir = true)
  ∧ (maven_cmd = "mvn" ∧ (∃ t, which w t "mvn" = true)
     ∨ maven_cmd = "./mvnw"
       ∧ ∃ t, which w t "mvn" = false
              ∧ path_exists w (S t) (path_join backend_dir "mvnw") = true)
  ∧ ∃ t c, subprocess_run w t (CmdStr (maven_cmd +:+ " clean compile"))
             (Some backend_dir) true true = Return c
           ∧ returncode c = 0.
Proof.
  unfold prepare_backend. intros H.
  do 3 (apply bind_inv in H as ([] & _ & H & _); cbn [print emit final] in H).
  apply bind_inv in H as ([] & _ & H & _).
  apply bind_inv in H as (bp & Hbp & H & _).
  apply bind_inv in H as ([] & Hfound & H & _). apply exit_unless_returns in Hfound.
  apply bind_inv in H as ([] & _ & H & _).
  apply bind_inv in H as ([] & _ & H & _).
  apply bind_inv in H as (present & Hpresent & H & _).
  apply bind_inv in H as ([] & Hdir & H & _). apply exit_unless_returns in Hdir.
  apply bind_inv in H as (system & Hsystem & H & _).
  apply bind_inv in H as (maven & Hmaven & H & _).
  apply bind_inv in H as ([] & _ & H & _).
  apply bind_inv in H as ([[success out] err] & Hrun & H & _).
  apply bind_inv in H as ([] & Hok & H & _).
  do 2 (apply bind_inv in H as ([] & _ & H & _)).
  do 4 (apply bind_inv in H as ([] & _ & H & _); cbn [print emit final] in H).
  injection H as <- <-.
  destruct success; cycle 1.
  { do 3 apply bind_inv in Hok as ([] & _ & Hok & _). done. }
  clear Hok. apply run_command_success in Hrun as (c & Hrun & Hc).
  cbn [argv negb] in Hrun.
  injection Hpresent as <-. apply negb_false_iff in Hdir.
  injection Hsystem as <-.
  split; [by eapply scan_10; [lia|..]|]. split; [by eauto|]. split; [|by eauto].
  match type of Hmaven with
  | context [which w ?t "mvn"] => destruct (which w t "mvn") eqn:Hwhich
  end.
  - left. apply bind_inv in Hmaven as ([] & _ & Hmaven & _). injection Hmaven as <-.
    by eauto.
  - right. apply bind_inv in Hmaven as (wrapper & Hwrapper & Hmaven & _).
    injection Hwrapper as <-. cbn [final ask query tick next_tick] in Hmaven.
    match type of Hmaven with
    | context [path_exists w ?t ?path] => destruct (path_exists w t path) eqn:Hmvnw
    end.
    + apply bind_inv in Hmaven as ([] & _ & Hmaven & _). injection Hmaven as <-.
      by eauto.
    + apply bind_inv in Hmaven as ([] & _ & Hmaven & _). by apply exit_never_returns in Hmaven.
Qed.

(** Lines 409-447: the same for [start_frontend]. *)
Lemma prepare_frontend_return s backend_port frontend_port :
  res (prepare_frontend w s) = Return (backend_port, frontend_port) →
  (∃ port, backend_port = Some port ∧ 8082 ≤ port ≤ 8091 ∧ ∃ t, busy w t port = false)
  ∧ (∃ port, frontend_port = Some port ∧ 3002 ≤ port ≤ 3011
             ∧ ∃ t, busy w t port = false)
  ∧ (∃ t, path_exists w t frontend_dir = true)
  ∧ ∃ t, path_exists w t (path_join frontend_dir "node_modules") = true
         ∨ ∃ c, subprocess_run w (S (S t)) (CmdStr "npm install") (Some frontend_dir)
                  true true = Return c
                ∧ returncode c = 0.
Proof.
  unfold prepare_frontend. intros H.
  do 3 (apply bind_inv in H as ([] & _ & H & _); cbn [print emit final] in H).
  apply bind_inv in H as ([] & _ & H & _).
  apply bind_inv in H as (fp & Hfp & H & _).
  apply bind_inv in H as (bp & Hbp & H & _).
  apply bind_inv in H as ([] & Hfront & H & _). apply exit_unless_returns in Hfront.
  apply bind_inv in H as ([] & Hback & H & _). apply exit_unless_returns in Hback.
  do 2 (apply bind_inv in H as ([] & _ & H & _)).
  apply bind_inv in H as (present & Hpresent & H & _).
  apply bind_inv in H as ([] & Hdir & H & _). apply exit_unless_returns in Hdir.
  apply bind_inv in H as (modules & Hmodules & H & _).
  apply bind_inv in H as ([] & Hinstall & H & _).
  apply bind_inv in H as ([] & _ & H & _).
  do 4 (apply bind_inv in H as ([] & _ & H & _); cbn [print emit final] in H).
  injection H as <- <-.
  injection Hpresent as <-. apply negb_false_iff in Hdir.
  split; [by eapply scan_10; [lia|..]|]. split; [by eapply scan_10; [lia|..]|]. split; [by eauto|].
  injection Hmodules as <-.
  match type of Hinstall with
  | context [path_exists w ?t ?path] =>
      exists t; destruct (path_exists w t path) eqn:Hthere; [by left|right]
  end.
  cbn [negb] in Hinstall.
  apply bind_inv in Hinstall as ([] & _ & Hinstall & _).
  rewrite write_status_run in Hinstall. cbn [final ask query tick next_tick] in Hinstall.
  apply bind_inv in Hinstall as ([[success out] err] & Hrun & Hinstall & _).
  apply bind_inv in Hinstall as ([] & Hok & _).
  destruct success; cycle 1.
  { do 2 apply bind_inv in Hok as ([] & _ & Hok & _). done. }
  apply run_command_success in Hrun as (c & Hrun & Hc). by eauto.
Qed.

End Services.

(** X6: [start_backend] starts its one child only when everything before
    it went well: a port of 8082-8091 answered as free, the directory
    backend exists, Maven or the wrapper was found, and [clean compile]
    came back with return code 0.  The child is that Maven's
    [spring-boot:run], in backend, with [SERVER_PORT] set to the port found
    and the rest of the environment inherited, writing to the terminal. *)
Theorem start_backend_child (w : world) (s : state)
    (cmd cwd : string) (env : environment) (log : file) :
  Spawn cmd cwd env log ∈ events (start_backend w s) →
  ∃ (maven_cmd : string) (port : Z),
    (maven_cmd = "mvn" ∨ maven_cmd = "./mvnw")
    ∧ cmd = maven_cmd +:+ " spring-boot:run" ∧ cwd = "backend" ∧ log = 1
    ∧ 8082 ≤ port ≤ 8091 ∧ (∃ t, busy w t port = false)
    ∧ env = <["SERVER_PORT" := pretty port]> (environ w)
    ∧ (∃ t, path_exists w t "backend" = true)
    ∧ ∃ t c, subprocess_run w t (CmdStr (maven_cmd +:+ " clean compile"))
               (Some "backend") true true = Return c
             ∧ returncode c = 0.
Proof.
  intros Hin. unfold start_backend in Hin.
  eapply (only_child (prepare_backend w) _
            (λ ready, Spawn (fst ready +:+ " spring-boot:run") backend_dir
                            (backend_env w (snd ready)) 1)) in Hin
    as ([maven_cmd backend_port] & Hready & Hspawn);
    [|apply prepare_backend_sound; by intros|intros; apply serve_backend_run|done].
  cbn [fst snd] in Hspawn. injection Hspawn as -> -> -> ->.
  apply prepare_backend_return in Hready
    as ((port & -> & Hrange & Hfree) & Hdir & Hmaven & Hcompiled).
  exists maven_cmd, port.
  split; [destruct Hmaven as [[-> _]|[-> _]]; by auto|].
  by repeat (split; [done|]).
Qed.

(** X6 at work: the first port is free, Maven is installed and the build
    goes through. *)
Lemma start_backend_child_witness :
  ∃ t c, subprocess_run quiet t (CmdStr "mvn clean compile") (Some "backend") true true
           = Return c
         ∧ returncode c = 0.
Proof.
  destruct (start_backend_child quiet boot "mvn spring-boot:run" "backend"
              (backend_env quiet (Some 8082)) 1)
    as (maven_cmd & port & Hmaven & Hcmd & _ & _ & _ & _ & _ & _ & t & c & Hrun & Hc).
  - apply (list_elem_of_lookup_2 _ 19%nat). vm_compute. reflexivity.
  - assert (maven_cmd = "mvn") as -> by (destruct Hmaven as [->| ->]; [done|discriminate Hcmd]).
    by exists t, c.
Defined.

(** X7: once the child of [start_backend] has been started, the return
    code it ends with is not looked at: [start_backend] returns normally
    whenever [subprocess.run] returns.  Ctrl+C while the child runs also
    ends in a normal return (exit status 0); an exception that is an
    [Exception] ends in [sys.exit(1)]; any other exception propagates. *)
Theorem start_backend_ignores_return_code (w : world) (s : state)
    (maven_cmd : string) (backend_port : option Z) :
  res (prepare_backend w s) = Return (maven_cmd, backend_port) →
  let r := start_backend w s in
  Spawn (maven_cmd +:+ " spring-boot:run") "backend"
        (<["SERVER_PORT" := str_port backend_port]> (environ w)) 1 ∈ events r
  ∧ match subprocess_run w (tick (final (prepare_backend w s)))
            (CmdStr (maven_cmd +:+ " spring-boot:run")) (Some "backend") true false with
    | Return _ => res r = Return tt
    | Raise e =>
        if is_KeyboardInterrupt e then res r = Return tt ∧ exit_status (res r) = 0
        else if is_Exception e then res r = Raise (SystemExit 1)
        else res r = Raise e
    end.
Proof.
  intros Hready r. subst r. unfold start_backend.
  rewrite bind_res, bind_events, Hready. cbn [fst snd].
  destruct (serve_backend_run w maven_cmd backend_port (final (prepare_backend w s)))
    as (Hres & rest & Hev & _).
  rewrite Hres, Hev. split.
  - apply elem_of_app. right. apply list_elem_of_here.
  - unfold after_child. destruct (subprocess_run w _ _ _ true false) as [c|x]; [done|].
    destruct (is_KeyboardInterrupt x); [done|]. by destruct (is_Exception x).
Qed.

(** X7 at work: the server ends with return code 1, and [start_backend]
    returns as if nothing had happened. *)
Lemma start_backend_ignores_return_code_witness :
  subprocess_run crashing_child 13 (CmdStr "mvn spring-boot:run") (Some "backend") true false
    = Return (Completed 1 "" "")
  ∧ res (start_backend crashing_child boot) = Return tt
  ∧ res (start_backend stopped_child boot) = Return tt.
Proof.
  split; [reflexivity|]. split.
  - destruct (start_backend_ignores_return_code crashing_child boot "mvn" (Some 8082))
      as [_ Hres]; [reflexivity|exact Hres].
  - destruct (start_backend_ignores_return_code stopped_child boot "mvn" (Some 8082))
      as [_ Hres]; [reflexivity|exact (proj1 Hres)].
Defined.

(** X8: [start_frontend] starts its one child only when a port of
    3002-3011 and a port of 8082-8091 answered as free, the directory
    frontend exists, and node_modules is there or [npm install] came back
    with return code 0.  The child is [npm start], in frontend, with [PORT]
    and [REACT_APP_API_URL] made from the two ports and the rest of the
    environment inherited. *)
Theorem start_frontend_child (w : world) (s : state)
    (cmd cwd : string) (env : environment) (log : file) :
  Spawn cmd cwd env log ∈ events (start_frontend w s) →
  ∃ backend_port frontend_port : Z,
    cmd = "npm start" ∧ cwd = "frontend" ∧ log = 1
    ∧ 8082 ≤ backend_port ≤ 8091 ∧ (∃ t, busy w t backend_port = false)
    ∧ 3002 ≤ frontend_port ≤ 3011 ∧ (∃ t, busy w t frontend_port = false)
    ∧ env = <["REACT_APP_API_URL" := "http://localhost:" +:+ pretty backend_port +:+ "/api"]>
              (<["PORT" := pretty frontend_port]> (environ w))
    ∧ (∃ t, path_exists w t "frontend" = true)
    ∧ ∃ t, path_exists w t "frontend/node_modules" = true
           ∨ ∃ c, subprocess_run w (S (S t)) (CmdStr "npm install") (Some "frontend")
                    true true = Return c
                  ∧ returncode c = 0.
Proof.
  intros Hin. unfold start_frontend in Hin.
  eapply (only_child (prepare_frontend w) _
            (λ ports, Spawn "npm start" frontend_dir
                            (frontend_env w (fst ports) (snd ports)) 1)) in Hin
    as ([backend_port frontend_port] & Hready & Hspawn);
    [|apply prepare_frontend_sound; by intros|intros; apply serve_frontend_run|done].
  cbn [fst snd] in Hspawn. injection Hspawn as -> -> -> ->.
  apply prepare_frontend_return in Hready
    as ((bp & -> & Hback & Hbfree) & (fp & -> & Hfront & Hffree) & Hdir & Hmodules).
  exists bp, fp. by repeat (split; [done|]).
Qed.

(** X8 at work: both first ports are free and node_modules is there. *)
Lemma start_frontend_child_witness :
  ∃ backend_port frontend_port : Z,
    frontend_env quiet (Some 8082) (Some 3002) !! "PORT" = Some (pretty frontend_port)
    ∧ (8082 ≤ backend_port ≤ 8091 ∧ ∃ t, busy quiet t backend_port = false)
    ∧ (3002 ≤ frontend_port ≤ 3011 ∧ ∃ t, busy quiet t frontend_port = false).
Proof.
  destruct (start_frontend_child quiet boot "npm start" "frontend"
              (frontend_env quiet (Some 8082) (Some 3002)) 1)
    as (bp & fp & _ & _ & _ & Hback & Hbfree & Hfront & Hffree & Henv & _).
  - apply (list_elem_of_lookup_2 _ 14%nat). vm_compute. reflexivity.
  - exists bp, fp. split; [|done].
    unfold frontend_env in Henv. cbn [str_port] in Henv.
    replace (pretty fp) with (pretty 3002); [reflexivity|].
    assert (Hport : (<["REACT_APP_API_URL" := "http://localhost:" +:+ pretty bp +:+ "/api"]>
                        (<["PORT" := pretty fp]> (environ quiet)) : environment) !! "PORT"
                    = Some (pretty fp))
      by (by rewrite lookup_insert_ne, lookup_insert_eq).
    rewrite <- Henv in Hport. rewrite lookup_insert_ne, lookup_insert_eq in Hport by done.
    by injection Hport.
Defined.

(** X9: as for the backend, the return code of [npm start] is not looked
    at by [start_frontend]; Ctrl+C ends in a normal return, an [Exception]
    in [sys.exit(1)], and any other exception propagates. *)
Theorem start_frontend_ignores_return_code (w : world) (s : state)
    (backend_port frontend_port : option Z) :
  res (prepare_frontend w s) = Return (backend_port, frontend_port) →
  let r := start_frontend w s in
  Spawn "npm start" "frontend"
        (<["REACT_APP_API_URL" := "http://localhost:" +:+ str_port backend_port +:+ "/api"]>
           (<["PORT" := str_port frontend_port]> (environ w))) 1 ∈ events r
  ∧ match subprocess_run w (tick (final (prepare_frontend w s)))
            (CmdStr "npm start") (Some "frontend") true false with
    | Return _ => res r = Return tt
    | Raise e =>
        if is_KeyboardInterrupt e then res r = Return tt ∧ exit_status (res r) = 0
        else if is_Exception e then res r = Raise (SystemExit 1)
        else res r = Raise e
    end.
Proof.
  intros Hready r. subst r. unfold start_frontend.
  rewrite bind_res, bind_events, Hready. cbn [fst snd].
  destruct (serve_frontend_run w backend_port frontend_port (final (prepare_frontend w s)))
    as (Hres & rest & Hev & _).
  rewrite Hres, Hev. split.
  - apply elem_of_app. right. apply list_elem_of_here.
  - unfold after_child. destruct (subprocess_run w _ _ _ true false) as [c|x]; [done|].
    destruct (is_KeyboardInterrupt x); [done|]. by destruct (is_Exception x).
Qed.

(** X9 at work: the development server ends with return code 1. *)
Lemma start_frontend_ignores_return_code_witness :
  res (start_frontend crashing_child boot) = Return tt
  ∧ res (start_frontend stopped_child boot) = Return tt.
Proof.
  split.
  - destruct (start_frontend_ignores_return_code crashing_child boot (Some 8082) (Some 3002))
      as [_ Hres]; [reflexivity|exact Hres].
  - destruct (start_frontend_ignores_return_code stopped_child boot (Some 8082) (Some 3002))
      as [_ Hres]; [reflexivity|exact (proj1 Hres)].
Defined.

(** ** The order of events in [start_all] *)

Lemma app_eq_split {X} (xs ys before after : list X) e :
  (xs ++ ys)%list = (before ++ e :: after)%list →
  (∃ after', xs = (before ++ e :: after')%list)
  ∨ (∃ mid, before = (xs ++ mid)%list ∧ ys = (mid ++ e :: after)%list).
Proof.
  revert before. induction xs as [|x xs IH]; intros before H.
  - right. by exists before.
  - destruct before as [|b before]; cbn in H.
    + injection H as -> _. left. by exists xs.
    + injection H as -> H. destruct (IH _ H) as [[after' ->]|(mid & -> & ->)].
      * left. by exists after'.
      * right. by exists mid.
Qed.

(** An operation of [m >>= k] is one of [m], or [m] returned and it is one
    of [k], with all of [m]'s operations before it. *)
Lemma bind_split {A B} (m : M A) (k : A → M B) s before e after :
  events (bind m k s) = (before ++ e :: after)%list →
  (∃ after', events (m s) = (before ++ e :: after')%list)
  ∨ ∃ a mid, res (m s) = Return a ∧ before = (events (m s) ++ mid)%list
             ∧ events (k a (final (m s))) = (mid ++ e :: after)%list.
Proof.
  rewrite bind_events. intros [[after' Hm]|(mid & -> & Hk)]%app_eq_split.
  - left. by exists after'.
  - right. destruct (res (m s)) as [a|x]; [by exists a, mid|]. by destruct mid.
Qed.

Lemma elem_of_middle {X} (before after : list X) e : e ∈ (before ++ e :: after)%list.
Proof. apply elem_of_app. right. apply list_elem_of_here. Qed.

Tactic Notation "cut_at" hyp(H) "as" simple_intropattern(a) ident(Ha) :=
  apply bind_split in H as [[? H]|(a & ? & Ha & -> & H)].

Tactic Notation "cut_at" hyp(H) :=
  let a := fresh "a" in
  let Ha := fresh "Ha" in
  apply bind_split in H as [[? H]|(a & ? & Ha & -> & H)].

(** No child is started by [m]: [H] says one is. *)
Ltac absent H :=
  exfalso;
  lazymatch type of H with
  | events (?m ?s) = (_ ++ ?child :: _)%list =>
      let Hin := fresh "Hin" in
      assert (Hin : child ∈ events (m s)) by (rewrite H; apply elem_of_middle);
      eapply (sound_events any_state (λ e, is_spawn e = false) any_exn) in Hin;
      [discriminate Hin|sound; done]
  end.

Section Order.

Context (w : world).

Ltac branch :=
  repeat match goal with
         | |- context [match ?x with _ => _ end] =>
             lazymatch x with
             | context [match _ with _ => _ end] => fail
             | _ => tryif is_var x then fail else destruct x eqn:?
             end
         end.

Lemma choose_maven_return s maven_cmd :
  res (choose_maven w s) = Return maven_cmd → maven_cmd = "mvn" ∨ maven_cmd = "./mvnw".
Proof.
  cbv beta iota zeta delta
    [choose_maven test_command bind ask query ret raise sys_exit write_status print emit
     res final events app].
  branch; cbn; intros [= <-]; auto.
Qed.

Lemma compile_backend_return maven_cmd s :
  res (compile_backend w maven_cmd s) = Return tt →
  succeeded w (maven_cmd +:+ " clean compile") backend_dir.
Proof.
  unfold compile_backend. intros H.
  apply bind_inv in H as ([] & _ & H & _).
  apply bind_inv in H as ([[success out] err] & Hrun & H & _).
  destruct success; cycle 1.
  { do 3 apply bind_inv in H as ([] & _ & H & _). done. }
  apply run_command_success in Hrun as (c & Hrun & Hc). cbn [argv negb] in Hrun.
  eexists _, c. by split.
Qed.

Lemma spawn_backend_child maven_cmd backend_port s e :
  e ∈ events (spawn_backend w maven_cmd backend_port s) →
  match e with
  | Spawn cmd cwd _ _ => cmd = maven_cmd +:+ " spring-boot:run" ∧ cwd = backend_dir
  | _ => True
  end.
Proof.
  apply (sound_events any_state
           (λ e, match e with
                 | Spawn cmd cwd _ _ =>
                     cmd = maven_cmd +:+ " spring-boot:run" ∧ cwd = backend_dir
                 | _ => True
                 end) any_exn).
  sound; done.
Qed.

Lemma spawn_frontend_child backend_port frontend_port s e :
  e ∈ events (spawn_frontend w backend_port frontend_port s) →
  match e with
  | Spawn cmd cwd _ _ => cmd = "npm start" ∧ cwd = frontend_dir
  | _ => True
  end.
Proof.
  apply (sound_events any_state
           (λ e, match e with
                 | Spawn cmd cwd _ _ => cmd = "npm start" ∧ cwd = frontend_dir
                 | _ => True
                 end) any_exn).
  sound; done.
Qed.

Lemma spawn_backend_spawned maven_cmd backend_port s :
  res (spawn_backend w maven_cmd backend_port s) = Return tt →
  ∃ log, Spawn (maven_cmd +:+ " spring-boot:run") backend_dir
               (backend_env w backend_port) log
         ∈ events (spawn_backend w maven_cmd backend_port s).
Proof.
  cbv beta iota zeta delta
    [spawn_backend bind try_except ask query assign raise sys_exit ret
     write_status print emit res final events app].
  branch; cbn; try done; intros _; eexists;
    repeat first [apply list_elem_of_here | apply list_elem_of_further].
Qed.

Lemma rounds_first_request {X} url running (x : X) xs s :
  ∃ rest, events (for_each (x :: xs) (λ _, attempt w url running) s)
          = HttpGet url 2 :: rest.
Proof.
  cbn [for_each]. rewrite bind_events, attempt_run.
  destruct (up w (tick s) url 2); cbn [events app]; by eexists.
Qed.

Lemma up_answered t url : up w t url 2 = true → answered w url.
Proof.
  unfold up. intros H. destruct (urlopen w t url 2) as [response|x] eqn:Hopen; [|done].
  destruct (on_close response) as [[]|x] eqn:Hclose; [|done].
  exists t, response. split; [done|]. split; [by apply Z.eqb_eq|done].
Qed.

Lemma poll_started url running s :
  res (poll w url running s) = Return true →
  HttpGet url 2 ∈ events (poll w url running s) ∧ answered w url.
Proof.
  rewrite poll_unfold. cbv zeta. cbn [res events]. intros H. split.
  - destruct (rounds_first_request url running 0 (py_range 1 30) s) as [rest Hrest].
    change (0 :: py_range 1 30) with (py_range 0 30) in Hrest. rewrite Hrest.
    apply list_elem_of_here.
  - destruct (rounds_outcome w url running (py_range 0 30) s)
      as [(k & _ & Hup & _)|(_ & Hres & _)].
    + by eapply up_answered.
    + by rewrite Hres in H.
Qed.

Lemma await_backend_return backend_port s :
  res (await_backend w backend_port s) = Return tt →
  HttpGet (backend_url backend_port) 2 ∈ events (await_backend w backend_port s)
  ∧ answered w (backend_url backend_port).
Proof.
  unfold await_backend. intros H. rewrite bind_write_status in *. cbv zeta in *.
  cbn [res events] in *.
  pose proof H as H'. apply bind_inv in H' as (started & Hpoll & H' & _ & Hev).
  destruct started; cycle 1.
  { exfalso. revert H'. cbn [negb].
    do 5 (apply bind_never_returns; intros ? ?). apply cleanup_never_returns. }
  apply poll_started in Hpoll as [Hin Hup]. split; [|done].
  apply list_elem_of_further. rewrite Hev. apply elem_of_app. by left.
Qed.

Lemma armed_app (xs ys : list event) :
  (∃ first rest, ys = (first ++ SignalHandler 2 :: SignalHandler 15 :: rest)%list) →
  ∃ first rest, (xs ++ ys)%list = (first ++ SignalHandler 2 :: SignalHandler 15 :: rest)%list.
Proof. intros (first & rest & ->). exists (xs ++ first)%list, rest. by rewrite app_assoc. Qed.

Lemma armed_more (ys zs : list event) :
  (∃ first rest, ys = (first ++ SignalHandler 2 :: SignalHandler 15 :: rest)%list) →
  ∃ first rest, (ys ++ zs)%list = (first ++ SignalHandler 2 :: SignalHandler 15 :: rest)%list.
Proof.
  intros (first & rest & ->). exists first, (rest ++ zs)%list.
  by rewrite <- app_assoc.
Qed.

(** Lines 471-584 when a child is among the operations: it is the
    backend's, started after the handlers were installed and the build went
    through. *)
Lemma launch_backend_child s before cmd cwd env log after :
  events (launch_backend w s) = (before ++ Spawn cmd cwd env log :: after)%list →
  (∃ first rest, before = (first ++ SignalHandler 2 :: SignalHandler 15 :: rest)%list)
  ∧ cwd = backend_dir
  ∧ ∃ maven_cmd, (maven_cmd = "mvn" ∨ maven_cmd = "./mvnw")
                 ∧ cmd = maven_cmd +:+ " spring-boot:run"
                 ∧ succeeded w (maven_cmd +:+ " clean compile") backend_dir.
Proof.
  intros H. unfold launch_backend in H.
  do 3 (cut_at H; [absent H|]).
  cut_at H as ports Hports; [absent H|].
  cut_at H as [] Hmongo; [absent H|].
  cut_at H as [] Htrap; [absent H|].
  cut_at H as maven_cmd Hmaven; [absent H|].
  cut_at H as [] Hcompile; [absent H|].
  cut_at H as [] Hspawn; cycle 1.
  { match type of H with _ = (?mid ++ _)%list => by destruct mid end. }
  match type of H with
  | _ = (?mid ++ _ :: ?rest)%list =>
      pose proof (elem_of_middle mid rest (Spawn cmd cwd env log)) as Hin
  end.
  rewrite <- H in Hin. apply spawn_backend_child in Hin as [-> ->].
  split.
  - do 5 apply armed_app. rewrite declare_and_trap_run. by eexists [], _.
  - split; [done|]. exists maven_cmd.
    split; [by eapply choose_maven_return|]. split; [done|].
    by eapply compile_backend_return.
Qed.

(** Lines 471-584 when control gets past them: the handlers are
    installed, the build went through and the backend's child is there. *)
Lemma launch_backend_done s ports :
  res (launch_backend w s) = Return ports →
  (∃ first rest, events (launch_backend w s)
                 = (first ++ SignalHandler 2 :: SignalHandler 15 :: rest)%list)
  ∧ (∃ cmd env log, Spawn cmd backend_dir env log ∈ events (launch_backend w s))
  ∧ ∃ maven_cmd, (maven_cmd = "mvn" ∨ maven_cmd = "./mvnw")
                 ∧ succeeded w (maven_cmd +:+ " clean compile") backend_dir.
Proof.
  unfold launch_backend. intros H.
  do 3 (apply bind_inv in H as ([] & _ & H & _ & ->); cbv beta in * ).
  apply bind_inv in H as (ports' & Hports & H & _ & ->). cbv beta in *.
  apply bind_inv in H as ([] & _ & H & _ & ->). cbv beta in *.
  apply bind_inv in H as ([] & _ & H & _ & ->). cbv beta in *.
  apply bind_inv in H as (maven_cmd & Hmaven & H & _ & ->). cbv beta in *.
  apply bind_inv in H as ([] & Hcompile & H & _ & ->). cbv beta in *.
  apply bind_inv in H as ([] & Hspawn & H & _ & ->). cbv beta in *.
  split; [|split].
  - do 5 apply armed_app. rewrite declare_and_trap_run. by eexists [], _.
  - apply spawn_backend_spawned in Hspawn as [log Hin].
    eexists _, _, log. do 8 (apply elem_of_app; right). apply elem_of_app. left.
    exact Hin.
  - exists maven_cmd. split; [by eapply choose_maven_return|].
    by eapply compile_backend_return.
Qed.

(** Where a child of [start_all] stands among its operations. *)
Lemma start_all_child s before cmd cwd env log after :
  events (start_all w s) = (before ++ Spawn cmd cwd env log :: after)%list →
  (∃ first rest, before = (first ++ SignalHandler 2 :: SignalHandler 15 :: rest)%list)
  ∧ (∃ maven_cmd, (maven_cmd = "mvn" ∨ maven_cmd = "./mvnw")
                  ∧ succeeded w (maven_cmd +:+ " clean compile") backend_dir)
  ∧ (cwd = backend_dir
     ∨ cwd = frontend_dir
       ∧ ∃ ports, res (find_ports w s) = Return ports
                  ∧ (∃ cmd' env' log', Spawn cmd' backend_dir env' log' ∈ before)
                  ∧ HttpGet (backend_url (fst ports)) 2 ∈ before
                  ∧ answered w (backend_url (fst ports))).
Proof.
  intros H. unfold start_all in H.
  cut_at H as [] Hlaunch; cycle 1.
  { exfalso.
    match type of H with
    | _ = (?mid ++ ?child :: ?rest)%list =>
        pose proof (elem_of_middle mid rest child) as Hin
    end.
    rewrite <- H in Hin.
    by eapply (sound_events same_vars (λ e, is_spawn e = false) any_exn) in Hin;
      [|apply idle_loop_sound]. }
  unfold launch in H. cut_at H as ports Hboth; [|absent H].
  unfold launch_both in H. cut_at H as ports Hback.
  - apply launch_backend_child in H as (Harmed & -> & maven_cmd & Hmaven & _ & Hcompiled).
    split; [done|]. split; [by exists maven_cmd|by left].
  - pose proof (launch_backend_return w s ports Hback) as (Hports & _).
    apply launch_backend_done in Hback as (Harmed & (cmd' & env' & log' & Hspawned) & Hbuilt).
    cut_at H as [] Hawait; [absent H|].
    apply await_backend_return in Hawait as [Hget Hup].
    cut_at H as [] Hfront; cycle 1.
    { match type of H with _ = (?mid ++ _)%list => by destruct mid end. }
    unfold launch_frontend in H. cut_at H as [] Hinstall; [absent H|].
    match type of H with
    | _ = (?mid ++ ?child :: ?rest)%list =>
        pose proof (elem_of_middle mid rest child) as Hin
    end.
    rewrite <- H in Hin. apply spawn_frontend_child in Hin as [-> ->].
    split; [by apply armed_more|]. split; [done|]. right. split; [done|].
    exists ports. split; [done|]. split.
    { exists cmd', env', log'. apply elem_of_app. by left. }
    split; [|done]. apply elem_of_app. right. apply elem_of_app. by left.
Qed.

End Order.

(** X10: [start_all] installs its two signal handlers (lines 538-540,
    SIGINT and SIGTERM) before it starts any child process: wherever a
    child is started in a run, both installations come earlier in that
    run, SIGINT first and SIGTERM right after it. *)
Theorem handlers_before_children (w : world) (s : state) (before after : list event)
    (cmd cwd : string) (env : environment) (log : file) :
  events (start_all w s) = (before ++ Spawn cmd cwd env log :: after)%list →
  ∃ first rest,
    before = (first ++ SignalHandler 2 :: SignalHandler 15 :: rest)%list.
Proof. intros H. by apply start_all_child in H as (Harmed & _). Qed.

(** X10 at work: the backend's child is the nineteenth operation of a run
    in which everything goes well. *)
Lemma handlers_before_children_witness :
  ∃ first rest,
    take 18 (events (start_all quiet boot))
    = (first ++ SignalHandler 2 :: SignalHandler 15 :: rest)%list.
Proof.
  apply (handlers_before_children quiet boot _ (drop 19 (events (start_all quiet boot)))
           "mvn spring-boot:run" "backend" (backend_env quiet (Some 8082)) 13).
  vm_compute. reflexivity.
Defined.

(** X11: [start_all] starts a child process, backend or frontend, only
    after [clean compile] of the backend came back with return code 0, run
    by the system Maven or by the wrapper. *)
Theorem children_after_successful_compile (w : world) (s : state)
    (cmd cwd : string) (env : environment) (log : file) :
  Spawn cmd cwd env log ∈ events (start_all w s) →
  ∃ (maven_cmd : string) (t : nat) (c : completed),
    (maven_cmd = "mvn" ∨ maven_cmd = "./mvnw")
    ∧ subprocess_run w t (CmdStr (maven_cmd +:+ " clean compile")) (Some "backend")
        true true = Return c
    ∧ returncode c = 0.
Proof.
  intros (before & after & H)%list_elem_of_split.
  apply start_all_child in H as (_ & (maven_cmd & Hmaven & t & c & Hrun & Hc) & _).
  by exists maven_cmd, t, c.
Qed.

(** X11 at work: the frontend's child, in a run in which everything goes
    well. *)
Lemma children_after_successful_compile_witness :
  ∃ (maven_cmd : string) (t : nat) (c : completed),
    subprocess_run quiet t (CmdStr (maven_cmd +:+ " clean compile")) (Some "backend")
      true true = Return c
    ∧ returncode c = 0.
Proof.
  destruct (children_after_successful_compile quiet boot "npm start" "frontend"
              (frontend_env quiet (Some 8082) (Some 3002)) 22)
    as (maven_cmd & t & c & _ & Hrun & Hc).
  - apply (list_elem_of_lookup_2 _ 26%nat). vm_compute. reflexivity.
  - by exists maven_cmd, t, c.
Defined.

(** X12: the frontend's child is started only after the backend's: before
    it in the run come the backend's child and a request to the backend's
    health URL, http://localhost:<backend port>/api/posts with a timeout of
    two seconds, and such a request was answered with status 200. *)
Theorem frontend_after_backend_answers (w : world) (s : state)
    (before after : list event) (cmd : string) (env : environment) (log : file) :
  events (start_all w s) = (before ++ Spawn cmd "frontend" env log :: after)%list →
  ∃ ports,
    res (find_ports w s) = Return ports
    ∧ (∃ cmd' env' log', Spawn cmd' "backend" env' log' ∈ before)
    ∧ HttpGet (backend_url (fst ports)) 2 ∈ before
    ∧ ∃ t response,
        urlopen w t (backend_url (fst ports)) 2 = Return response
        ∧ status response = 200 ∧ on_close response = Return tt.
Proof.
  intros H. apply start_all_child in H as (_ & _ & [Hcwd|[_ Hfront]]); [done|].
  destruct Hfront as (ports & Hports & Hspawned & Hget & Hup). by exists ports.
Qed.

(** X12 at work: a run in which everything goes well. *)
Lemma frontend_after_backend_answers_witness :
  HttpGet "http://localhost:8082/api/posts" 2 ∈ take 26 (events (start_all quiet boot)).
Proof.
  destruct (frontend_after_backend_answers quiet boot
              (take 26 (events (start_all quiet boot)))
              (drop 27 (events (start_all quiet boot)))
              "npm start" (frontend_env quiet (Some 8082) (Some 3002)) 22)
    as (ports & Hports & _ & Hget & _).
  - vm_compute. reflexivity.
  - assert (ports = (Some 8082, Some 3002)) as ->.
    { assert (Hrun : res (find_ports quiet boot) = Return (Some 8082, Some 3002))
        by reflexivity.
      rewrite Hrun in Hports. by injection Hports. }
    exact Hget.
Defined.

(** ** What [start_all] reaches out to *)

Lemma sound_weaken {A} R (Q Q' : event → Prop) E (m : M A) :
  (∀ e, Q e → Q' e) → sound R Q E m → sound R Q' E m.
Proof.
  intros HQ Hm s. destruct (Hm s) as (HR & Hev & HE).
  split; [done|]. split; [|done]. eapply Forall_impl; eauto.
Qed.

Section Reach.

Context (w : world).

Lemma find_free_port_reach (Q : event → Prop) start :
  0 ≤ start ≤ 65526 →
  (∀ port, start ≤ port ≤ start + 9 → Q (Connect port)) →
  sound any_state Q any_exn (find_free_port w start 10).
Proof.
  intros Hstart HQ s. split; [done|]. split; [|done].
  change 10 with (Z.of_nat 10).
  apply Forall_forall. intros e He.
  assert (∃ k : nat, e ∈ Connect <$> py_range start (start + Z.of_nat k) ∧ (k ≤ 10)%nat)
    as (k & Hin & Hk).
  { destruct (scan_outcome w 10 start s) as [(i & Hi & _ & _ & _ & Hev)|(_ & _ & Hev)];
      [lia..| |]; rewrite Hev in He.
    - exists (S i). split; [|lia].
      by replace (start + Z.of_nat (S i)) with (start + Z.of_nat i + 1) by lia.
    - by exists 10%nat. }
  apply list_elem_of_fmap in Hin as (port & -> & Hport).
  unfold py_range in Hport.
  change (map ?f ?l) with (f <$> l) in Hport.
  apply list_elem_of_fmap in Hport as (i & -> & Hi%elem_of_seq).
  apply HQ. lia.
Qed.

Ltac reach_step :=
  lazymatch goal with
  | |- sound _ _ _ (find_free_port _ _ 10) =>
      apply find_free_port_reach; [lia|intros ? ?; cbn; lia]
  | |- _ => sound_step
  end.

Ltac reach := repeat reach_step.

Lemma find_ports_nearby : sound any_state probes_nearby any_exn (find_ports w).
Proof. reach; done. Qed.

Lemma cleanup_winding_down : sound same_vars winding_down any_exn (cleanup w).
Proof. sound; done. Qed.

Lemma idle_winding_down n : sound same_vars winding_down any_exn (idle w n).
Proof.
  induction n as [|n IH]; cbn [idle]; [apply cleanup_winding_down|].
  apply sound_bind; [exact same_vars_trans| |done]. sound; done.
Qed.

Lemma idle_loop_winding_down n :
  sound same_vars winding_down any_exn
        (try_except (idle w n) is_KeyboardInterrupt (λ _, cleanup w)).
Proof.
  apply sound_try_except with (E' := any_exn);
    [exact same_vars_trans|apply idle_winding_down
    |intros; apply cleanup_winding_down|done].
Qed.

Lemma launch_both_ports s ports :
  res (launch_both w s) = Return ports → res (find_ports w s) = Return ports.
Proof.
  unfold launch_both. intros H.
  apply bind_inv in H as (ports' & Hback & H & _).
  do 2 apply bind_inv in H as ([] & _ & H & _). injection H as ->.
  by apply launch_backend_return in Hback as [Hports _].
Qed.

Ltac nearby H :=
  left;
  first [ apply list_elem_of_singleton in H; by subst
        | eapply sound_events in H; [exact H|apply find_ports_nearby] ].

Ltac reached H ports :=
  right; exists ports; split; [done|];
  apply (sound_events any_state (within_reach ports) any_exn) in H; [done|];
  reach; cbn; auto with lia.

Lemma start_all_reach s e :
  e ∈ events (start_all w s) →
  probes_nearby e ∨ ∃ ports, res (find_ports w s) = Return ports ∧ within_reach ports e.
Proof.
  intros H. unfold start_all in H.
  apply elem_of_bind in H as [H|([] & Hlaunch & H)]; cycle 1.
  { left. eapply sound_events in H; [|apply idle_loop_winding_down]. by destruct e. }
  unfold launch in H. apply elem_of_bind in H as [H|(ports & Hboth & H)]; cycle 1.
  { apply launch_both_ports in Hboth. reached H ports. }
  unfold launch_both in H. apply elem_of_bind in H as [H|(ports & Hback & H)]; cycle 1.
  { apply launch_backend_return in Hback as [Hports _]. reached H ports. }
  unfold launch_backend in H.
  do 3 (apply elem_of_bind in H as [H|([] & _ & H)]; [nearby H|]).
  cbn [print emit final] in H.
  apply elem_of_bind in H as [H|(ports & Hports & H)]; [nearby H|].
  reached H ports.
Qed.

End Reach.

(** X13: [start_all] stays on the local machine's well-known ports.  It
    probes no port outside 8082-8091, 3002-3011 and 27017, and every HTTP
    request it makes has a timeout of two seconds and goes to the
    backend's health URL or to the frontend's root URL, at the ports the
    two scans returned. *)
Theorem start_all_stays_local (w : world) (s : state) (e : event) :
  e ∈ events (start_all w s) →
  match e with
  | Connect port => 8082 ≤ port ≤ 8091 ∨ 3002 ≤ port ≤ 3011 ∨ port = 27017
  | HttpGet url timeout =>
      timeout = 2
      ∧ ∃ ports, res (find_ports w s) = Return ports
                 ∧ (url = "http://localhost:" +:+ str_port (fst ports) +:+ "/api/posts"
                    ∨ url = "http://localhost:" +:+ str_port (snd ports))
  | _ => True
  end.
Proof.
  intros [Hnear|(ports & Hports & Hreach)]%start_all_reach.
  - by destruct e.
  - destruct e; try done. destruct Hreach as [-> Hurl]. split; [done|]. by exists ports.
Qed.

(** X13 at work: the first request to the frontend in a run in which
    everything goes well. *)
Lemma start_all_stays_local_witness :
  ∃ ports, res (find_ports quiet boot) = Return ports
           ∧ ("http://localhost:3002" = "http://localhost:" +:+ str_port (fst ports)
                                        +:+ "/api/posts"
              ∨ "http://localhost:3002" = "http://localhost:" +:+ str_port (snd ports)).
Proof.
  apply (start_all_stays_local quiet boot (HttpGet "http://localhost:3002" 2)).
  apply (list_elem_of_lookup_2 _ 29%nat). vm_compute. reflexivity.
Defined.

(** ** How long [start_all] sleeps *)

Section Sleep.

Context (w : world).

Lemma slept_app a b : slept (a ++ b) = slept a + slept b.
Proof. induction a as [|[] a IH]; cbn [slept app]; lia. Qed.

Lemma sleepless_slept evs : Forall sleepless evs → slept evs = 0.
Proof. induction 1 as [|e evs He _ IH]; [done|]. by destruct e. Qed.

Lemma dozes_sound {A} R E (m : M A) : sound R sleepless E m → dozes 0 m.
Proof.
  intros H s. destruct (H s) as (_ & Hev & _). rewrite sleepless_slept; [lia|done].
Qed.

Lemma dozes_bind {A B} a b (m : M A) (k : A → M B) :
  0 ≤ b → dozes a m → (∀ x, dozes b (k x)) → dozes (a + b) (bind m k).
Proof.
  intros Hb Hm Hk s. rewrite bind_events, slept_app. specialize (Hm s).
  destruct (res (m s)) as [x|x]; [specialize (Hk x (final (m s)))|cbn [slept]]; lia.
Qed.

Lemma dozes_weaken {A} a b (m : M A) : a ≤ b → dozes a m → dozes b m.
Proof. intros Hab Hm s. specialize (Hm s). lia. Qed.

Lemma poll_dozes url running : dozes 60 (poll w url running).
Proof.
  intros s. rewrite poll_unfold. cbv zeta. cbn [events].
  destruct (rounds_outcome w url running (py_range 0 30) s)
    as [(k & Hk & _ & _ & _ & _ & ->)|(_ & _ & _ & ->)];
    change (length (py_range 0 30)) with 30%nat in *; lia.
Qed.

Ltac still := apply (dozes_sound any_state any_exn); sound; done.

Lemma await_backend_dozes backend_port : dozes 60 (await_backend w backend_port).
Proof.
  unfold await_backend. apply (dozes_weaken (0 + (60 + 0))); [lia|].
  apply dozes_bind; [lia|still|intros _].
  apply dozes_bind; [lia|apply poll_dozes|intros started]. still.
Qed.

Lemma await_frontend_dozes frontend_port : dozes 60 (await_frontend w frontend_port).
Proof.
  unfold await_frontend. apply (dozes_weaken (0 + (60 + 0))); [lia|].
  apply dozes_bind; [lia|still|intros _].
  apply dozes_bind; [lia|apply poll_dozes|intros started]. still.
Qed.

Lemma launch_dozes : dozes 120 (launch w).
Proof.
  unfold launch. apply (dozes_weaken (60 + (60 + 0))); [lia|].
  apply dozes_bind; [lia| |intros ports].
  - unfold launch_both. apply (dozes_weaken (0 + (60 + 0))); [lia|].
    apply dozes_bind; [lia|still|intros ports].
    apply dozes_bind; [lia|apply await_backend_dozes|intros _]. still.
  - apply dozes_bind; [lia|apply await_frontend_dozes|intros _]. still.
Qed.

Lemma idle_dozes n : dozes (Z.of_nat n) (idle w n).
Proof.
  induction n as [|n IH]; cbn [idle]; [still|].
  apply (dozes_weaken (1 + Z.of_nat n)); [lia|].
  apply dozes_bind; [lia| |done]. intros s. cbn. lia.
Qed.

Lemma idle_loop_dozes n :
  dozes (Z.of_nat n) (try_except (idle w n) is_KeyboardInterrupt (λ _, cleanup w)).
Proof.
  intros s. pose proof (idle_dozes n s) as Hidle. unfold try_except.
  destruct (idle w n s) as [[[]|x] s1 e1]; cbn [events] in *; [done|].
  destruct (is_KeyboardInterrupt x); [|done].
  assert (Hclean : dozes 0 (cleanup w)) by still. specialize (Hclean s1).
  destruct (cleanup w s1) as [r s2 e2]. cbn [events] in *. rewrite slept_app. lia.
Qed.

End Sleep.

(** X14: until the summary is printed [start_all] spends at most 120
    seconds in [time.sleep], 60 for each of the two health checks; after
    that it sleeps one second at a time until a signal arrives, and
    [cleanup] itself never sleeps. *)
Theorem start_all_sleeps_at_most (w : world) (s : state) :
  0 ≤ slept (events (launch w s)) ≤ 120
  ∧ 0 ≤ slept (events (start_all w s)) ≤ 120 + Z.of_nat (signal_after w)
  ∧ slept (events (cleanup w s)) = 0.
Proof.
  split; [apply launch_dozes|]. split.
  - unfold start_all.
    apply (dozes_bind 120 (Z.of_nat (signal_after w)));
      [lia|apply launch_dozes|intros _; apply idle_loop_dozes].
  - assert (Hquiet : sound any_state sleepless any_exn (cleanup w)) by (sound; done).
    apply sleepless_slept. by destruct (Hquiet s) as (_ & Hev & _).
Qed.

(** ** The exit status once the backend has been started *)

Section Exits.

Context (w : world).
Hypothesis world_never_exits : never_exits w.

Lemma bind_raise_inv {A B} (m : M A) (k : A → M B) s x :
  res (bind m k s) = Raise x →
  res (m s) = Raise x ∨ ∃ a, res (m s) = Return a ∧ res (k a (final (m s))) = Raise x.
Proof.
  rewrite bind_res. destruct (res (m s)) as [a|y]; intros H; [right; by exists a|left; by injection H as ->].
Qed.

Lemma from_world_exit_0 x : from_world w x → exit_0_only x.
Proof. intros Hx code ->. by apply (world_never_exits _ code) in Hx. Qed.

Ltac answered_by_world :=
  let t := fresh "t" in
  let x := fresh "x" in
  let Hx := fresh "Hx" in
  intros t x Hx; apply from_world_exit_0; unfold from_world;
  repeat lazymatch goal with
         | |- _ ∨ _ => first [left; solve [eauto 8]|right]
         end;
  solve [eauto 8].

Ltac exits_step :=
  lazymatch goal with
  | |- sound _ _ _ (try_except _ anything _) =>
      apply sound_try_except with (E' := any_exn);
      [relation_side|sound; done|intros ? _ _|done]
  | |- sound _ _ _ (try_except _ _ _) =>
      apply sound_try_except with (E' := exit_0_only);
      [relation_side| |intros ? _ _|by intros]
  | |- sound _ _ _ (ask _ _) =>
      apply sound_ask; [relation_side|by repeat constructor|first [done|answered_by_world]]
  | |- sound _ _ _ (raise _) => apply sound_raise; [relation_side|by intros ? [= <-]]
  | |- sound _ _ _ (sys_exit _) => apply sound_raise; [relation_side|by intros ? [= <-]]
  | |- sound _ _ _ (answer _) =>
      apply sound_answer; [relation_side|]
  | |- _ => sound_step
  end.

Ltac exits := repeat exits_step.

Lemma cleanup_exits : sound any_state (λ _, True) exit_0_only (cleanup w).
Proof. exits. Qed.

Lemma idle_exits n : sound any_state (λ _, True) exit_0_only (idle w n).
Proof.
  induction n as [|n IH]; cbn [idle]; [apply cleanup_exits|].
  apply sound_bind; [done| |done]. exits.
Qed.

Lemma idle_loop_exits n :
  sound any_state (λ _, True) exit_0_only
        (try_except (idle w n) is_KeyboardInterrupt (λ _, cleanup w)).
Proof.
  apply sound_try_except with (E' := exit_0_only);
    [done|apply idle_exits|intros; apply cleanup_exits|by intros].
Qed.

Lemma await_backend_exits backend_port :
  sound any_state (λ _, True) exit_0_only (await_backend w backend_port).
Proof. exits. Qed.

Lemma launch_frontend_exits ports :
  sound any_state (λ _, True) exit_0_only (launch_frontend w ports).
Proof. exits. Qed.

Lemma await_frontend_exits frontend_port :
  sound any_state (λ _, True) exit_0_only (await_frontend w frontend_port).
Proof. exits. Qed.

Lemma summary_exits backend_port frontend_port :
  sound any_state (λ _, True) exit_0_only (summary w backend_port frontend_port).
Proof. exits. Qed.

Lemma raised_in {A} (m : M A) s x :
  sound any_state (λ _, True) exit_0_only m → res (m s) = Raise x → exit_0_only x.
Proof. intros Hm Hx. destruct (Hm s) as (_ & _ & HE). by apply HE. Qed.

Lemma after_backend_exits s ports x :
  res (launch_backend w s) = Return ports →
  res (start_all w s) = Raise x → exit_0_only x.
Proof.
  intros Hback H. unfold start_all in H.
  apply bind_raise_inv in H as [H|([] & _ & H)];
    [|by eapply raised_in; [apply idle_loop_exits|]].
  unfold launch in H. apply bind_raise_inv in H as [H|(ports' & _ & H)]; cycle 1.
  { apply bind_raise_inv in H as [H|([] & _ & H)].
    - by eapply raised_in; [apply await_frontend_exits|].
    - by eapply raised_in; [apply summary_exits|]. }
  unfold launch_both in H. apply bind_raise_inv in H as [H|(ports' & _ & H)];
    [congruence|].
  apply bind_raise_inv in H as [H|([] & _ & H)];
    [by eapply raised_in; [apply await_backend_exits|]|].
  apply bind_raise_inv in H as [H|([] & _ & H)]; [|done].
  by eapply raised_in; [apply launch_frontend_exits|].
Qed.

End Exits.

(** X15: once the backend's child has been started, [start_all] has no
    [sys.exit(1)] left on its way.  Every failure from then on (a backend
    or a frontend that does not come up, a failed [npm install], a frontend
    that cannot be started) goes through [cleanup], whose last statement is
    [sys.exit(0)]: if the run ends in [SystemExit], its status is 0. *)
Theorem exit_status_after_backend (w : world) (s : state)
    (ports : option Z * option Z) :
  never_exits w →
  res (launch_backend w s) = Return ports →
  ∀ code, res (start_all w s) = Raise (SystemExit code) → code = 0.
Proof.
  intros Hworld Hback code Hexit.
  by apply (after_backend_exits w Hworld s ports (SystemExit code) Hback Hexit).
Qed.

(** X15 at work: a backend that never answers. *)
Lemma exit_status_after_backend_witness :
  res (launch_backend never_up boot) = Return (Some 8082, Some 3002)
  ∧ ∀ code, res (start_all never_up boot) = Raise (SystemExit code) → code = 0.
Proof.
  split; [reflexivity|].
  apply (exit_status_after_backend never_up boot (Some 8082, Some 3002)); [|reflexivity].
  intros x code Hx ->. unfold from_world in Hx.
  repeat lazymatch type of Hx with
         | _ ∨ _ => destruct Hx as [Hx|Hx]
         | ex _ => destruct Hx as [? Hx]
         end;
    discriminate Hx.
Defined.
